(** * zgrab2: the banner scanner and the TLS scanner

    A shallow embedding of [modules/banner/scanner.go] and [modules/tls.go].
    Go values are modelled as follows:
    - [string] is [String.string], [[]byte] is [list byte];
    - [int] is [Z] (the loops below only count from 0 up to [MaxTries], so
      no wrap-around can occur), [uint64] is [Z] reduced modulo [2^64];
    - a (value, error) pair returned by a call keeps both components;
      [nil] is [None];
    - a call on the network is answered by the [ScanTarget] under scan, and
      every call is recorded in a trace. *)

From Stdlib Require Import ZArith List String Ascii Bool Lia.
From Stdlib Require Import Strings.Byte.
From Stdlib Require Import DecimalString DecimalPos DecimalN.
Import ListNotations.

Local Open Scope string_scope.
Local Open Scope list_scope.
Local Open Scope Z_scope.

Set Implicit Arguments.

(** ** Go runtime values *)

Module Go.

(** The [error] values that the two scanners create, compare against or
    receive from the libraries they call. *)
Inductive NetErrorKind : Type :=
| Timeout
| ConnectionRefused
| IOFailure.

Inductive error : Type :=
| io_EOF                                   (* io.EOF *)
| NoMatchError                             (* banner.NoMatchError *)
| ErrMismatchedFlags                       (* zgrab2.ErrMismatchedFlags *)
| CorruptInputError (offset : Z)           (* base64.CorruptInputError *)
| ErrSyntax                                (* strconv.ErrSyntax *)
| NetError (kind : NetErrorKind) (msg : string)   (* a net.Error *)
| OtherError (msg : string).

(** [readerr != io.EOF] *)
Definition is_EOF (e : error) : bool :=
  match e with
  | io_EOF => true
  | _ => false
  end.

(** What a function call can do besides returning: a run-time panic (the nil
    dereferences and the explicit [panic] calls of the source).  [OutOfFuel]
    is the model's own: the loops are given a bounded number of iterations,
    which is shown below to be always sufficient. *)
Inductive Outcome (A : Type) : Type :=
| Return (r : A)
| Panic (msg : string)
| OutOfFuel.

Arguments Panic {A} msg.
Arguments OutOfFuel {A}.

Definition nil_dereference : string :=
  "runtime error: invalid memory address or nil pointer dereference".

(** [len(s)] of a string and of a byte slice. *)
Definition len_string (s : string) : Z := Z.of_nat (String.length s).
Definition len_bytes (b : list byte) : Z := Z.of_nat (List.length b).

(** *** package bytes *)

Definition byte_eqb (a b : byte) : bool := Byte.eqb a b.

Fixpoint HasPrefix (s prefix : list byte) {struct prefix} : bool :=
  match prefix with
  | [] => true
  | p :: prefix' =>
      match s with
      | [] => false
      | c :: s' => byte_eqb c p && HasPrefix s' prefix'
      end
  end.

(** [bytes.Contains(b, subslice)]: [subslice] occurs at some offset of [b]. *)
Fixpoint Contains (b subslice : list byte) : bool :=
  HasPrefix b subslice ||
  match b with
  | [] => false
  | _ :: b' => Contains b' subslice
  end.

(** *** package encoding/hex *)

Definition hextable : list ascii :=
  list_ascii_of_string "0123456789abcdef".

Definition hex_digit (n : N) : ascii := nth (N.to_nat n) hextable "0"%char.

(** [hex.EncodeToString]: two lower-case digits per byte, high nibble first. *)
Fixpoint hex_EncodeToString (src : list byte) : string :=
  match src with
  | [] => EmptyString
  | v :: src' =>
      String (hex_digit (N.shiftr (Byte.to_N v) 4))
        (String (hex_digit (N.land (Byte.to_N v) 15))
           (hex_EncodeToString src'))
  end.

(** *** package math/big and strconv *)

(** [big.Int.Uint64]: the low 64 bits of the magnitude. *)
Definition big_Int_Uint64 (x : Z) : Z := (Z.abs x) mod 2 ^ 64.

(** [strconv.FormatUint(v, 10)] *)
Definition strconv_FormatUint10 (v : Z) : string :=
  NilZero.string_of_uint (N.to_uint (Z.to_N v)).

(** [big.Int.String]: the decimal representation of the whole number,
    used only to state what a decimal serial number is. *)
Definition big_Int_String (x : Z) : string :=
  NilZero.string_of_int (Z.to_int x).

End Go.

Import Go.

(** ** package zgrab2: what the scanners use of the framework *)

Module zgrab2.

(** Modelled from the spec: the enumeration [zgrab2.ScanStatus], which is
    declared outside scanner.go and tls.go.  The two scanners name
    SCAN_SUCCESS, SCAN_SUCCESS_NOTCONTAIN and SCAN_PROTOCOL_ERROR; the other
    four are the "statuses derived generically from connection failures
    (timeout, connection-refused, io-error, unknown-error)". *)
Inductive ScanStatus : Type :=
| SCAN_SUCCESS
| SCAN_SUCCESS_NOTCONTAIN
| SCAN_PROTOCOL_ERROR
| SCAN_IO_TIMEOUT
| SCAN_CONNECTION_REFUSED
| SCAN_IO_ERROR
| SCAN_UNKNOWN_ERROR.

(** The two statuses of a scan that met its target and ran to its end. *)
Definition is_success_status (st : ScanStatus) : bool :=
  match st with
  | SCAN_SUCCESS | SCAN_SUCCESS_NOTCONTAIN => true
  | _ => false
  end.

(** [zgrab2.TryGetScanStatus] is defined outside scanner.go and tls.go.
    The scanners are verified for every error-to-status mapping that
    yields neither of the two success statuses for an error. *)
Class ErrorStatus : Type := {
  TryGetScanStatus : error -> ScanStatus;
  TryGetScanStatus_failure :
    forall e, is_success_status (TryGetScanStatus e) = false
}.

(** Modelled from the spec: the body of [zgrab2.TryGetScanStatus], the
    generic error-to-status mapping: "statuses derived generically from
    connection failures (timeout, connection-refused, io-error,
    unknown-error)". *)
Definition spec_TryGetScanStatus (e : error) : ScanStatus :=
  match e with
  | NetError Timeout _ => SCAN_IO_TIMEOUT
  | NetError ConnectionRefused _ => SCAN_CONNECTION_REFUSED
  | NetError IOFailure _ => SCAN_IO_ERROR
  | io_EOF => SCAN_IO_ERROR
  | _ => SCAN_UNKNOWN_ERROR
  end.

(** [zgrab2.BaseFlags]: the fields the scanners read. *)
Record BaseFlags : Type := {
  Name : string;
  Trigger : string
}.

(** Modelled from the spec: the type declarations of the TLS log, which
    tls.go only uses: "a HandshakeLog containing ServerHello (present
    once the peer responds at the protocol level) and ServerCertificates
    (Certificate = leaf, Chain = ordered sequence of intermediate/root
    certificates).  Each certificate carries parsed fields including
    fingerprint digests (MD5, SHA1, SHA256) and a serial number". *)
Record tls_ServerHello : Type := {
  hello_raw : list byte
}.

Record x509_Certificate : Type := {
  FingerprintMD5 : list byte;
  FingerprintSHA1 : list byte;
  FingerprintSHA256 : list byte;
  SerialNumber : Z
}.

Record tls_SimpleCertificate : Type := {
  Parsed : x509_Certificate
}.

Record tls_Certificates : Type := {
  Certificate : tls_SimpleCertificate;
  Chain : list tls_SimpleCertificate
}.

Record tls_ServerHandshake : Type := {
  ServerHello : option tls_ServerHello;
  ServerCertificates : tls_Certificates
}.

Record TLSLog : Type := {
  HandshakeLog : tls_ServerHandshake
}.

(** A [*zgrab2.TLSConnection]: [GetLog] may answer [nil]. *)
Record TLSConnection : Type := {
  GetLog : option TLSLog
}.

(** A [zgrab2.ScanTarget], seen through the answers that its peer gives to
    the calls of a scan; an answer [None] in the place of an error is a nil
    error.  The answers to [Open], [Write] and [ReadAvailable] depend on how
    many such calls came before.  [OpenTLS] answers a connection and an
    error, either of which may be nil; [GetTLSConnection_log] is the log of
    the connection that [GetTLSConnection] wraps, as it stands when the
    caller of [Scan] reads it. *)
Record ScanTarget : Type := {
  Open : nat -> option error;
  OpenTLS : option TLSConnection * option error;
  GetTLSConnection : option error;
  GetTLSConnection_log : option TLSLog;
  Handshake : option error;
  Write : nat -> option error;
  ReadAvailable : nat -> list byte * option error
}.

(** The calls made on the network during a scan, oldest first. *)
Inductive Event : Type :=
| EvOpen (r : option error)
| EvOpenTLS (r : option error)
| EvGetTLSConnection (r : option error)
| EvHandshake (r : option error)
| EvWrite (data : list byte) (r : option error)
| EvReadAvailable (data : list byte) (r : option error)
| EvClose.

Definition Trace : Type := list Event.

Definition is_EvOpen (ev : Event) : bool :=
  match ev with EvOpen _ => true | _ => false end.
Definition is_EvWrite (ev : Event) : bool :=
  match ev with EvWrite _ _ => true | _ => false end.
Definition is_EvReadAvailable (ev : Event) : bool :=
  match ev with EvReadAvailable _ _ => true | _ => false end.

Definition count (p : Event -> bool) (tr : Trace) : nat :=
  List.length (List.filter p tr).

End zgrab2.

Import zgrab2.

Definition spec_ErrorStatus : ErrorStatus.
Proof.
  refine {| TryGetScanStatus := spec_TryGetScanStatus |}.
  intros [ | | | | | [ | | ] | ]; reflexivity.
Defined.

(** ** The configuration records of the two modules *)

(** [modules.TLSFlags] (tls.go).  The embedded [zgrab2.TLSFlags] only
    parameterise the handshake, whose outcome is the target's answer. *)
Record TLSFlags : Type := {
  TLSFlags_BaseFlags : BaseFlags;
  FilterFingerprintMD5 : string;
  FilterFingerprintSHA1 : string;
  FilterFingerprintSHA256 : string;
  FilterFingerprintSerial : string
}.

(** [banner.Flags] (banner/scanner.go). *)
Record Flags : Type := {
  Flags_BaseFlags : BaseFlags;
  Probe : string;
  Pattern : string;
  MaxTries : Z;
  UseTLS : bool;
  OnlyBASE64 : bool;
  ProbeBASE64 : string;
  SingleContains : string;
  SingleContainsString : string
}.

(** A [zgrab2.ScanFlags] interface value: a pointer to the flags of some
    module.  [m.NewFlags()] of the banner module yields a [FlagsPtr], that
    of the TLS module a [TLSFlagsPtr]. *)
Inductive ScanFlags : Type :=
| FlagsPtr (f : Flags)
| TLSFlagsPtr (f : TLSFlags)
| OtherFlagsPtr (module : string).

(** ** package modules: the TLS scanner (tls.go) *)

Module tls.

Record TLSScanner : Type := {
  config : option TLSFlags
}.

(** [NewFlags]: [new(TLSFlags)], every field at its zero value. *)
Definition NewFlags : ScanFlags :=
  TLSFlagsPtr
    {| TLSFlags_BaseFlags := {| Name := EmptyString; Trigger := EmptyString |};
       FilterFingerprintMD5 := EmptyString;
       FilterFingerprintSHA1 := EmptyString;
       FilterFingerprintSHA256 := EmptyString;
       FilterFingerprintSerial := EmptyString |}.

(** [NewScanner]: [new(TLSScanner)]. *)
Definition NewScanner : TLSScanner := {| config := None |}.

(** [Init]: the scanner after the call, and the error returned. *)
Definition Init (s : TLSScanner) (flags : ScanFlags)
  : TLSScanner * option error :=
  match flags with
  | TLSFlagsPtr f => ({| config := Some f |}, None)
  | _ => (s, Some ErrMismatchedFlags)
  end.

Definition Protocol : string := "tls".

(** The result of [Scan], an [interface{}]: [nil], or a [*TLSLog] (which
    is itself [nil] when [GetLog] answered so). *)
Inductive Result : Type :=
| nil_result
| TLSLogPtr (log : option TLSLog).

Definition ScanReturn : Type := (ScanStatus * Result * option error)%type.

(** The four comparisons of the [switch]. *)
Definition md5_matches (filter_md5 : string) (value : tls_SimpleCertificate) : bool :=
  let _cert_md5 := FingerprintMD5 (Parsed value) in
  let cert_md5 := hex_EncodeToString _cert_md5 in
  String.eqb cert_md5 filter_md5.

Definition sha1_matches (filter_sha1 : string) (value : tls_SimpleCertificate) : bool :=
  let _cert_sha1 := FingerprintSHA1 (Parsed value) in
  let cert_sha1 := hex_EncodeToString _cert_sha1 in
  String.eqb cert_sha1 filter_sha1.

Definition sha256_matches (filter_sha256 : string) (value : tls_SimpleCertificate) : bool :=
  let _cert_sha256 := FingerprintSHA256 (Parsed value) in
  let cert_sha256 := hex_EncodeToString _cert_sha256 in
  String.eqb cert_sha256 filter_sha256.

Definition serial_matches (filter_serialnumber : string) (value : tls_SimpleCertificate) : bool :=
  let _cert_serial := big_Int_Uint64 (SerialNumber (Parsed value)) in
  let cert_serial := strconv_FormatUint10 _cert_serial in
  String.eqb filter_serialnumber cert_serial.

(** [for _, value := range Chain { if matches(value) { return SUCCESS } }]:
    [true] when the loop returns, [false] when it runs to its end. *)
Fixpoint range_Chain (matches : tls_SimpleCertificate -> bool)
    (chain : list tls_SimpleCertificate) : bool :=
  match chain with
  | [] => false
  | value :: chain' => if matches value then true else range_Chain matches chain'
  end.

(** One [case] of the [switch]: the leaf, then the chain if it is not
    [nil], then [SCAN_SUCCESS_NOTCONTAIN].  [LogDataTLS] is dereferenced. *)
Definition filter_case (matches : tls_SimpleCertificate -> bool)
    (LogDataTLS : option TLSLog) : Outcome ScanReturn :=
  match LogDataTLS with
  | None => Panic nil_dereference
  | Some log =>
      let certs := ServerCertificates (HandshakeLog log) in
      if matches (Certificate certs) then
        Return (SCAN_SUCCESS, TLSLogPtr LogDataTLS, None)
      else if match Chain certs with [] => false | _ :: _ => true end
              && range_Chain matches (Chain certs) then
        Return (SCAN_SUCCESS, TLSLogPtr LogDataTLS, None)
      else
        Return (SCAN_SUCCESS_NOTCONTAIN, nil_result, None)
  end.

(** The comparison of the first filter that is configured, in the order
    of the [switch]; [None] when no filter is configured.  It is used to
    state what [Scan] does, not to define it. *)
Definition first_configured_filter (cfg : TLSFlags)
  : option (tls_SimpleCertificate -> bool) :=
  if negb (String.eqb (FilterFingerprintMD5 cfg) EmptyString)
  then Some (md5_matches (FilterFingerprintMD5 cfg))
  else if negb (String.eqb (FilterFingerprintSHA1 cfg) EmptyString)
  then Some (sha1_matches (FilterFingerprintSHA1 cfg))
  else if negb (String.eqb (FilterFingerprintSHA256 cfg) EmptyString)
  then Some (sha256_matches (FilterFingerprintSHA256 cfg))
  else if negb (String.eqb (FilterFingerprintSerial cfg) EmptyString)
  then Some (serial_matches (FilterFingerprintSerial cfg))
  else None.

(** The certificates that a filter is tried on: the leaf, then the chain. *)
Definition presented (log : TLSLog) : list tls_SimpleCertificate :=
  Certificate (ServerCertificates (HandshakeLog log))
  :: Chain (ServerCertificates (HandshakeLog log)).

Section Scan.
Context {ES : ErrorStatus}.

(** [Scan], after [OpenTLS] has answered [(conn, err)]. *)
Definition Scan_answer (cfg : TLSFlags)
    (conn : option TLSConnection) (err : option error) : Outcome ScanReturn :=
  match err with
  | Some e =>
      match conn with
      | Some c =>
          match GetLog c with
          | Some log =>
              match ServerHello (HandshakeLog log) with
              | Some _ => Return (TryGetScanStatus e, TLSLogPtr (Some log), Some e)
              | None => Return (TryGetScanStatus e, nil_result, Some e)
              end
          | None => Return (TryGetScanStatus e, nil_result, Some e)
          end
      | None => Return (TryGetScanStatus e, nil_result, Some e)
      end
  | None =>
      match conn with
      | None => Panic nil_dereference
      | Some c =>
          let LogDataTLS := GetLog c in
          if 0 <? len_string (FilterFingerprintMD5 cfg) then
            filter_case (md5_matches (FilterFingerprintMD5 cfg)) LogDataTLS
          else if 0 <? len_string (FilterFingerprintSHA1 cfg) then
            filter_case (sha1_matches (FilterFingerprintSHA1 cfg)) LogDataTLS
          else if 0 <? len_string (FilterFingerprintSHA256 cfg) then
            filter_case (sha256_matches (FilterFingerprintSHA256 cfg)) LogDataTLS
          else if 0 <? len_string (FilterFingerprintSerial cfg) then
            filter_case (serial_matches (FilterFingerprintSerial cfg)) LogDataTLS
          else
            Return (SCAN_SUCCESS, TLSLogPtr LogDataTLS, None)
      end
  end.

(** [Scan]: one call of [OpenTLS]; [conn.Close()] is deferred when [conn]
    is not [nil] and so runs on every way out. *)
Definition Scan (s : TLSScanner) (t : ScanTarget) : Outcome ScanReturn * Trace :=
  match config s with
  | None => (Panic nil_dereference, [])
  | Some cfg =>
      let '(conn, err) := OpenTLS t in
      (Scan_answer cfg conn err,
       EvOpenTLS err :: match conn with Some _ => [EvClose] | None => [] end)
  end.

End Scan.

End tls.

(** ** The Go packages behind the banner scanner *)

(** [regexp], [encoding/base64] and [strconv] are standard packages of Go;
    the banner scanner is verified for every implementation of them.
    [regexp_MustCompile] answers [None] where Go panics.  The one law
    assumed of [regexp] is that the empty pattern matches every input. *)
Class GoPackages : Type := {
  Regexp : Type;
  regexp_MustCompile : string -> option Regexp;
  regexp_Match : Regexp -> list byte -> bool;
  regexp_empty_pattern :
    forall re b, regexp_MustCompile EmptyString = Some re -> regexp_Match re b = true;
  base64_DecodeString : string -> list byte * option error;
  base64_EncodeToString : list byte -> string;
  strconv_Unquote : string -> string * option error
}.

(** ** package banner (banner/scanner.go) *)

Module banner.

Definition double_quote : ascii := ascii_of_nat 34.

(** [fmt.Sprintf] of the probe between two double quotes. *)
Definition Sprintf_quoted (s : string) : string :=
  String double_quote (String.append s (String double_quote EmptyString)).

Record Results : Type := {
  Banner : string;
  Length : Z;
  BannerBase64 : string;
  TLSLog : option zgrab2.TLSLog
}.

(** The result of [Scan], an [interface{}]: [nil], [result] (a
    [*Results]) or [&result]. *)
Inductive Result : Type :=
| nil_result
| ResultsPtr (result : Results)
| ResultsPtrPtr (result : Results).

Definition ScanReturn : Type := (ScanStatus * Result * option error)%type.

(** A [net.Conn], named after the call of [Open] that made it. *)
Definition Conn : Type := nat.

(** [NewFlags]: [new(Flags)], every field at its zero value. *)
Definition NewFlags : ScanFlags :=
  FlagsPtr
    {| Flags_BaseFlags := {| Name := EmptyString; Trigger := EmptyString |};
       Probe := EmptyString;
       Pattern := EmptyString;
       MaxTries := 0;
       UseTLS := false;
       OnlyBASE64 := false;
       ProbeBASE64 := EmptyString;
       SingleContains := EmptyString;
       SingleContainsString := EmptyString |}.

Section Scanner.
Context {GO : GoPackages} {ES : ErrorStatus}.

Record Scanner : Type := {
  config : option Flags;
  regex : option Regexp;
  probe : list byte
}.

(** [NewScanner]: [new(Scanner)]. *)
Definition NewScanner : Scanner :=
  {| config := None; regex := None; probe := [] |}.

Definition Protocol : string := "banner".

(** [Init].  The type assertion of [flags] to a pointer to [Flags], whose
    second result is discarded, leaves [f] nil for any other flags, and
    [scanner.config.Pattern] dereferences it. *)
Definition Init (scanner : Scanner) (flags : ScanFlags)
  : Outcome (Scanner * option error) :=
  let f := match flags with FlagsPtr f => Some f | _ => None end in
  match f with
  | None => Panic nil_dereference
  | Some cfg =>
      match regexp_MustCompile (Pattern cfg) with
      | None => Panic "regexp: Compile: error parsing regexp"
      | Some re =>
          if 0 <? len_string (Probe cfg) then
            let '(probe, err) := strconv_Unquote (Sprintf_quoted (Probe cfg)) in
            match err with
            | Some _ => Panic "Probe error"
            | None =>
                Return ({| config := f; regex := Some re;
                           probe := list_byte_of_string probe |}, None)
            end
          else if 0 <? len_string (ProbeBASE64 cfg) then
            let '(probe, err) := base64_DecodeString (ProbeBASE64 cfg) in
            match err with
            | Some _ => Panic "Probe(BASE64) error"
            | None =>
                Return ({| config := f; regex := Some re; probe := probe |}, None)
            end
          else
            Return ({| config := f; regex := Some re; probe := probe scanner |}, None)
      end
  end.

Variable target : ScanTarget.

(** The calls on the network: each is answered by the target and appended
    to the trace. *)
Definition target_Open (tr : Trace) : option Conn * option error * Trace :=
  let k := count is_EvOpen tr in
  let err := Open target k in
  (match err with None => Some k | Some _ => None end, err, tr ++ [EvOpen err]).

Definition conn_Write (p : list byte) (tr : Trace) : option error * Trace :=
  let err := Write target (count is_EvWrite tr) in
  (err, tr ++ [EvWrite p err]).

Definition conn_ReadAvailable (tr : Trace) : list byte * option error * Trace :=
  let '(ret, readerr) := ReadAvailable target (count is_EvReadAvailable tr) in
  (ret, readerr, tr ++ [EvReadAvailable ret readerr]).

(** [readerr != io.EOF && readerr != nil] *)
Definition read_failed (readerr : option error) : bool :=
  match readerr with
  | Some e => negb (is_EOF e)
  | None => false
  end.

(** The first loop of [Scan] (lines 143-150), from its current [try], [c]
    and [err]; [None] when the iterations allowed by [fuel] do not reach
    the end of the loop. *)
Fixpoint open_loop (cfg : Flags) (fuel : nat) (try : Z)
    (c : option Conn) (err : option error) (tr : Trace)
  : option (option Conn * option error * Trace) :=
  if try <? MaxTries cfg then
    match fuel with
    | O => None
    | S fuel' =>
        let try := try + 1 in
        let '(c, err, tr) := target_Open tr in
        match err with
        | Some _ => open_loop cfg fuel' try c err tr
        | None => Some (c, err, tr)
        end
    end
  else Some (c, err, tr).

(** The second loop of [Scan] (lines 172-185). *)
Fixpoint probe_loop (cfg : Flags) (probe : list byte) (fuel : nat) (try : Z)
    (err : option error) (ret : list byte) (readerr : option error) (tr : Trace)
  : option (option error * list byte * option error * Trace) :=
  if try <? MaxTries cfg then
    match fuel with
    | O => None
    | S fuel' =>
        let try := try + 1 in
        let '(err, tr) :=
          if 0 <? len_bytes probe then conn_Write probe tr else (err, tr) in
        let '(ret, readerr, tr) := conn_ReadAvailable tr in
        match err with
        | Some _ => probe_loop cfg probe fuel' try err ret readerr tr
        | None =>
            if read_failed readerr
            then probe_loop cfg probe fuel' try err ret readerr tr
            else Some (err, ret, readerr, tr)
        end
    end
  else Some (err, ret, readerr, tr).

(** Where [Scan] stands when it reaches line 192: it has returned or
    panicked ([Left]), or it holds the bytes read and the result under
    construction, with [c.Close()] still deferred ([Grabbed]). *)
Inductive Phase : Type :=
| Left (out : Outcome ScanReturn) (tr : Trace)
| Grabbed (ret : list byte) (result : Results) (tr : Trace).

Definition empty_Results : Results :=
  {| Banner := EmptyString; Length := 0; BannerBase64 := EmptyString; TLSLog := None |}.

(** Lines 156-191, entered with a connection and [c.Close()] deferred. *)
Definition grab_connected (scanner : Scanner) (cfg : Flags) (tr : Trace) : Phase :=
  let result := empty_Results in
  let tls :=
    if UseTLS cfg then
      let err := GetTLSConnection target in
      let tr := tr ++ [EvGetTLSConnection err] in
      match err with
      | Some e => inl (Return (TryGetScanStatus e, nil_result, Some e), tr)
      | None =>
          let result :=
            {| Banner := Banner result; Length := Length result;
               BannerBase64 := BannerBase64 result;
               TLSLog := GetTLSConnection_log target |} in
          let err := Handshake target in
          let tr := tr ++ [EvHandshake err] in
          match err with
          | Some e => inl (Return (TryGetScanStatus e, ResultsPtr result, Some e), tr)
          | None => inr (result, tr)
          end
      end
    else inr (result, tr) in
  match tls with
  | inl (out, tr) => Left out (tr ++ [EvClose])
  | inr (result, tr) =>
      match probe_loop cfg (probe scanner) (Z.to_nat (MaxTries cfg)) 0
              None [] None tr with
      | None => Left OutOfFuel tr
      | Some (err, ret, readerr, tr) =>
          match err with
          | Some e =>
              Left (Return (TryGetScanStatus e, nil_result, Some e)) (tr ++ [EvClose])
          | None =>
              match readerr with
              | Some e =>
                  if negb (is_EOF e) then
                    Left (Return (TryGetScanStatus e, nil_result, Some e))
                      (tr ++ [EvClose])
                  else Grabbed ret result tr
              | None => Grabbed ret result tr
              end
          end
      end
  end.

(** Lines 137-191.  [defer c.Close()] evaluates the method value of [c]:
    a run-time panic when the interface [c] is nil. *)
Definition grab (scanner : Scanner) (cfg : Flags) : Phase :=
  match open_loop cfg (Z.to_nat (MaxTries cfg)) 0 None None [] with
  | None => Left OutOfFuel []
  | Some (c, err, tr) =>
      match err with
      | Some e => Left (Return (TryGetScanStatus e, nil_result, Some e)) tr
      | None =>
          match c with
          | None => Left (Panic nil_dereference) tr
          | Some _ => grab_connected scanner cfg tr
          end
      end
  end.

(** Lines 206-211: the bytes to look for, and the error of decoding them. *)
Definition check_bytes_of (cfg : Flags) : list byte * option error :=
  let check_bytes := list_byte_of_string (SingleContainsString cfg) in
  let err_check_bytes : option error := None in
  if 0 <? len_string (SingleContains cfg)
  then base64_DecodeString (SingleContains cfg)
  else (check_bytes, err_check_bytes).

(** Lines 192-199: the banner is stored into [result]. *)
Definition store_banner (cfg : Flags) (ret : list byte) (result : Results) : Results :=
  let banner_base64 := base64_EncodeToString ret in
  let banner_str :=
    if negb (OnlyBASE64 cfg) then string_of_list_byte ret else EmptyString in
  {| Banner := banner_str; Length := len_bytes ret;
     BannerBase64 := banner_base64; TLSLog := TLSLog result |}.

(** Lines 192-220. *)
Definition classify (scanner : Scanner) (cfg : Flags)
    (ret : list byte) (result : Results) : Outcome ScanReturn :=
  let result := store_banner cfg ret result in
  if (len_string (SingleContains cfg) =? 0)
     && (len_string (SingleContainsString cfg) =? 0) then
    match regex scanner with
    | None => Panic nil_dereference
    | Some re =>
        if regexp_Match re ret
        then Return (SCAN_SUCCESS, ResultsPtrPtr result, None)
        else Return (SCAN_PROTOCOL_ERROR, ResultsPtrPtr result, Some NoMatchError)
    end
  else
    let '(check_bytes, err_check_bytes) := check_bytes_of cfg in
    if match err_check_bytes with None => true | Some _ => false end
       && (0 <? len_bytes check_bytes) then
      if Contains ret check_bytes
      then Return (SCAN_SUCCESS, ResultsPtrPtr result, None)
      else Return (SCAN_SUCCESS_NOTCONTAIN, nil_result, None)
    else Return (SCAN_PROTOCOL_ERROR, ResultsPtrPtr result, Some NoMatchError).

(** [Scan]: what the call does, and the trace of its calls on the network. *)
Definition Scan (scanner : Scanner) : Outcome ScanReturn * Trace :=
  match config scanner with
  | None => (Panic nil_dereference, [])
  | Some cfg =>
      match grab scanner cfg with
      | Left out tr => (out, tr)
      | Grabbed ret result tr => (classify scanner cfg ret result, tr ++ [EvClose])
      end
  end.

End Scanner.

(** The error, if any, on which the calls recorded in a trace ended: the
    answer to the last [Open] if it is an error, else that of the TLS
    set-up, else that to the last [Write], else that to the last
    [ReadAvailable] unless it is [io.EOF].  It is used to state what [Scan]
    returns, not to define it. *)
Definition last_answer (sel : Event -> option (option error)) (tr : Trace)
  : option error :=
  fold_left (fun acc ev => match sel ev with Some r => r | None => acc end) tr None.

Definition sel_Open (ev : Event) : option (option error) :=
  match ev with EvOpen r => Some r | _ => None end.
Definition sel_TLS (ev : Event) : option (option error) :=
  match ev with
  | EvGetTLSConnection r | EvHandshake r => Some r
  | _ => None
  end.
Definition sel_Write (ev : Event) : option (option error) :=
  match ev with EvWrite _ r => Some r | _ => None end.
Definition sel_Read (ev : Event) : option (option error) :=
  match ev with
  | EvReadAvailable _ r => Some (if read_failed r then r else None)
  | _ => None
  end.

Definition or_else (a b : option error) : option error :=
  match a with Some _ => a | None => b end.

Definition final_error (tr : Trace) : option error :=
  or_else (last_answer sel_Open tr)
    (or_else (last_answer sel_TLS tr)
       (or_else (last_answer sel_Write tr) (last_answer sel_Read tr))).

End banner.

(** ** An implementation of the Go packages

    [encoding/base64] is implemented in full ([StdEncoding], which pads
    with [=] and skips line breaks).  [regexp] and [strconv.Unquote] are
    implemented on a fragment of their input language, enough to run the
    scanner on concrete inputs: patterns made of an optional leading [^]
    and literal characters, and the escapes [\n \r \t \\] and the escaped
    double quote.  Inputs outside the fragments are refused, which says
    nothing about Go. *)

Module GoSubset.

Definition code (c : byte) : Z := Z.of_N (Byte.to_N c).

Definition byte_of_Z (z : Z) : byte :=
  match Byte.of_N (Z.to_N (z mod 256)) with
  | Some b => b
  | None => x00%byte
  end.

(** *** encoding/base64 *)

Definition decodeMap (c : byte) : option Z :=
  let n := code c in
  if (65 <=? n) && (n <=? 90) then Some (n - 65)
  else if (97 <=? n) && (n <=? 122) then Some (n - 71)
  else if (48 <=? n) && (n <=? 57) then Some (n + 4)
  else if n =? 43 then Some 62
  else if n =? 47 then Some 63
  else None.

Definition is_newline (c : byte) : bool := (code c =? 10) || (code c =? 13).
Definition is_padChar (c : byte) : bool := code c =? 61.

Fixpoint skip_newlines (src : list byte) (si : Z) : list byte * Z :=
  match src with
  | [] => ([], si)
  | c :: src' => if is_newline c then skip_newlines src' (si + 1) else (src, si)
  end.

(** The bytes of a quantum of which [dlen] characters were read. *)
Definition quantum_bytes (dbuf : list Z) (dlen : nat) : list byte :=
  let val := Z.lor (Z.lor (Z.shiftl (nth 0 dbuf 0) 18) (Z.shiftl (nth 1 dbuf 0) 12))
                   (Z.lor (Z.shiftl (nth 2 dbuf 0) 6) (nth 3 dbuf 0)) in
  firstn (dlen - 1)
    [byte_of_Z (Z.shiftr val 16); byte_of_Z (Z.shiftr val 8); byte_of_Z val].

(** After the padding: only line breaks may follow. *)
Definition decode_end (src : list byte) (si : Z) (dbuf : list Z) (out : list byte)
  : list byte * option error :=
  let '(rest, si) := skip_newlines src si in
  (out ++ quantum_bytes dbuf (List.length dbuf),
   match rest with
   | [] => None
   | _ :: _ => Some (CorruptInputError si)
   end).

Fixpoint decode (total : Z) (src : list byte) (si : Z) (dbuf : list Z)
    (out : list byte) : list byte * option error :=
  match src with
  | [] =>
      match dbuf with
      | [] => (out, None)
      | _ :: _ => (out, Some (CorruptInputError (si - Z.of_nat (List.length dbuf))))
      end
  | c :: src' =>
      if is_newline c then decode total src' (si + 1) dbuf out
      else
        match decodeMap c with
        | Some v =>
            let dbuf := dbuf ++ [v] in
            if (List.length dbuf =? 4)%nat
            then decode total src' (si + 1) [] (out ++ quantum_bytes dbuf 4)
            else decode total src' (si + 1) dbuf out
        | None =>
            if is_padChar c then
              match List.length dbuf with
              | O | S O => (out, Some (CorruptInputError si))
              | S (S O) =>
                  let '(rest, si) := skip_newlines src' (si + 1) in
                  match rest with
                  | [] => (out, Some (CorruptInputError total))
                  | c2 :: rest' =>
                      if is_padChar c2 then decode_end rest' (si + 1) dbuf out
                      else (out, Some (CorruptInputError si))
                  end
              | _ => decode_end src' (si + 1) dbuf out
              end
            else (out, Some (CorruptInputError si))
        end
  end.

Definition DecodeString (s : string) : list byte * option error :=
  let src := list_byte_of_string s in
  decode (len_bytes src) src 0 [] [].

Definition encodeStd : list ascii :=
  list_ascii_of_string
    "ABCDEFGHIJKLMNOPQRSTUVWXYZabcdefghijklmnopqrstuvwxyz0123456789+/".

Definition enc (v : Z) : ascii := nth (Z.to_nat (Z.land v 63)) encodeStd "A"%char.

Fixpoint encode (src : list byte) : string :=
  match src with
  | [] => EmptyString
  | [a] =>
      let val := Z.shiftl (code a) 16 in
      String (enc (Z.shiftr val 18)) (String (enc (Z.shiftr val 12)) "==")
  | [a; b] =>
      let val := Z.lor (Z.shiftl (code a) 16) (Z.shiftl (code b) 8) in
      String (enc (Z.shiftr val 18)) (String (enc (Z.shiftr val 12))
        (String (enc (Z.shiftr val 6)) "="))
  | a :: b :: c :: src' =>
      let val := Z.lor (Z.lor (Z.shiftl (code a) 16) (Z.shiftl (code b) 8)) (code c) in
      String (enc (Z.shiftr val 18)) (String (enc (Z.shiftr val 12))
        (String (enc (Z.shiftr val 6)) (String (enc val) (encode src'))))
  end.

Definition EncodeToString (src : list byte) : string := encode src.

(** *** regexp, on literal patterns *)

Record LiteralRegexp : Type := {
  anchored : bool;
  literal : list byte
}.

Definition is_meta (c : byte) : bool :=
  existsb (Z.eqb (code c)) [92; 46; 43; 42; 63; 40; 41; 124; 91; 93; 123; 125; 94; 36].

Definition MustCompile (pattern : string) : option LiteralRegexp :=
  let p := list_byte_of_string pattern in
  let '(a, body) :=
    match p with
    | c :: rest => if code c =? 94 then (true, rest) else (false, p)
    | [] => (false, [])
    end in
  if existsb is_meta body then None
  else Some {| anchored := a; literal := body |}.

Definition Match (re : LiteralRegexp) (b : list byte) : bool :=
  if anchored re then HasPrefix b (literal re) else Contains b (literal re).

(** *** strconv.Unquote, on double-quoted strings with simple escapes *)

Fixpoint unquote_body (s : list byte) : option (list byte) :=
  match s with
  | [] => None
  | c :: s' =>
      if code c =? 34 then
        match s' with [] => Some [] | _ :: _ => None end
      else if code c =? 10 then None
      else if code c =? 92 then
        match s' with
        | [] => None
        | e :: s'' =>
            let tail := unquote_body s'' in
            let put (b : byte) := option_map (cons b) tail in
            if code e =? 110 then put x0a%byte
            else if code e =? 114 then put x0d%byte
            else if code e =? 116 then put x09%byte
            else if code e =? 92 then put x5c%byte
            else if code e =? 34 then put x22%byte
            else None
        end
      else option_map (cons c) (unquote_body s')
  end.

Definition Unquote (s : string) : string * option error :=
  match list_byte_of_string s with
  | q :: body =>
      if code q =? 34 then
        match unquote_body body with
        | Some b => (string_of_list_byte b, None)
        | None => (EmptyString, Some ErrSyntax)
        end
      else (EmptyString, Some ErrSyntax)
  | [] => (EmptyString, Some ErrSyntax)
  end.

End GoSubset.

(** The implementation above as an instance of the interface. *)
Definition go_subset : GoPackages.
Proof.
  refine {| Regexp := GoSubset.LiteralRegexp;
            regexp_MustCompile := GoSubset.MustCompile;
            regexp_Match := GoSubset.Match;
            base64_DecodeString := GoSubset.DecodeString;
            base64_EncodeToString := GoSubset.EncodeToString;
            strconv_Unquote := GoSubset.Unquote |}.
  intros re b H. vm_compute in H. injection H as <-.
  unfold GoSubset.Match; simpl. destruct b; reflexivity.
Defined.

(** ** Concrete targets and configurations *)

Module Fixtures.

Definition timeout_error : error := NetError Timeout "i/o timeout".
Definition refused_error : error := NetError ConnectionRefused "connection refused".
Definition handshake_error : error := OtherError "tls: handshake failure".

Definition base : BaseFlags := {| Name := "scan"; Trigger := "" |}.

(** A target that answers nothing but the given [OpenTLS]. *)
Definition tls_target (answer : option TLSConnection * option error) : ScanTarget :=
  {| Open := fun _ => Some refused_error;
     OpenTLS := answer;
     GetTLSConnection := Some refused_error;
     GetTLSConnection_log := None;
     Handshake := Some refused_error;
     Write := fun _ => Some refused_error;
     ReadAvailable := fun _ => ([], Some refused_error) |}.

(** A target for the banner scanner, without TLS. *)
Definition tcp_target (open : nat -> option error) (write : nat -> option error)
    (read : nat -> list byte * option error) : ScanTarget :=
  {| Open := open;
     OpenTLS := (None, Some refused_error);
     GetTLSConnection := Some refused_error;
     GetTLSConnection_log := None;
     Handshake := Some refused_error;
     Write := write;
     ReadAvailable := read |}.

Definition certificate (md5 sha1 sha256 : list byte) (serial : Z)
  : tls_SimpleCertificate :=
  {| Parsed := {| FingerprintMD5 := md5; FingerprintSHA1 := sha1;
                  FingerprintSHA256 := sha256; SerialNumber := serial |} |}.

Definition leaf : tls_SimpleCertificate :=
  certificate (repeat x11%byte 16) (repeat x22%byte 20) (repeat x33%byte 32)
    (2 ^ 64 + 5).

Definition intermediate : tls_SimpleCertificate :=
  certificate (repeat x44%byte 16) (repeat x55%byte 20) (repeat x66%byte 32) 4096.

Definition root : tls_SimpleCertificate :=
  certificate (repeat x77%byte 16) (repeat x88%byte 20) (repeat x99%byte 32) 1.

Definition hello : tls_ServerHello := {| hello_raw := [x16; x03; x03]%byte |}.

Definition log_with (h : option tls_ServerHello) : zgrab2.TLSLog :=
  {| HandshakeLog :=
       {| ServerHello := h;
          ServerCertificates :=
            {| Certificate := leaf; Chain := [intermediate; root] |} |} |}.

Definition full_log : zgrab2.TLSLog := log_with (Some hello).

Definition tls_flags (md5 sha1 sha256 serial : string) : TLSFlags :=
  {| TLSFlags_BaseFlags := base;
     FilterFingerprintMD5 := md5;
     FilterFingerprintSHA1 := sha1;
     FilterFingerprintSHA256 := sha256;
     FilterFingerprintSerial := serial |}.

Definition tls_scanner (cfg : TLSFlags) : tls.TLSScanner :=
  {| tls.config := Some cfg |}.

(** The handshake completed. *)
Definition tls_completed : ScanTarget :=
  tls_target (Some {| GetLog := Some full_log |}, None).

(** The handshake failed after the ServerHello. *)
Definition tls_partial : ScanTarget :=
  tls_target (Some {| GetLog := Some full_log |}, Some handshake_error).

(** The handshake failed before any ServerHello. *)
Definition tls_silent : ScanTarget :=
  tls_target (Some {| GetLog := Some (log_with None) |}, Some timeout_error).

Definition md5_of_leaf : string := "11111111111111111111111111111111".
Definition sha1_of_leaf : string := "2222222222222222222222222222222222222222".
Definition sha1_of_root : string := "8888888888888888888888888888888888888888".

End Fixtures.

(** ** Concrete banner scans *)

Module BannerFixtures.
Import Fixtures.

Definition banner_flags (probe pattern : string) (max_tries : Z)
    (contain contain_string : string) : Flags :=
  {| Flags_BaseFlags := base;
     Probe := probe;
     Pattern := pattern;
     MaxTries := max_tries;
     UseTLS := false;
     OnlyBASE64 := false;
     ProbeBASE64 := EmptyString;
     SingleContains := contain;
     SingleContainsString := contain_string |}.

(** [NewScanner] followed by [Init]. *)
Definition init (cfg : Flags) : Outcome (@banner.Scanner go_subset * option error) :=
  banner.Init (GO := go_subset) banner.NewScanner (FlagsPtr cfg).

Definition scanner_of (cfg : Flags) : @banner.Scanner go_subset :=
  match init cfg with
  | Return (scanner, _) => scanner
  | _ => banner.NewScanner
  end.

Definition crlf : list byte := [x0d; x0a]%byte.

Definition ssh_banner : list byte :=
  list_byte_of_string "SSH-2.0-OpenSSH_8.2" ++ crlf.

Definition busy_banner : list byte :=
  list_byte_of_string "421 too many connections" ++ crlf.

(** An SSH server: it accepts, and sends its banner. *)
Definition ssh_server : ScanTarget :=
  tcp_target (fun _ => None) (fun _ => None) (fun _ => (ssh_banner, None)).

(** A server that answers 421 and closes. *)
Definition busy_server : ScanTarget :=
  tcp_target (fun _ => None) (fun _ => None) (fun _ => (busy_banner, Some io_EOF)).

(** A host that refuses every connection. *)
Definition closed_port : ScanTarget :=
  tcp_target (fun _ => Some refused_error) (fun _ => None) (fun _ => ([], None)).

(** An SSH server whose first connection times out, and which closes after
    its banner. *)
Definition flaky_server : ScanTarget :=
  tcp_target (fun k => match k with O => Some timeout_error | S _ => None end)
    (fun _ => None) (fun _ => (ssh_banner, Some io_EOF)).

(** The probe and the pattern of an SSH scan: the probe is the two
    characters backslash and n, which [Init] unquotes to a line feed. *)
Definition ssh_flags (max_tries : Z) : Flags :=
  banner_flags "\n" "^SSH-" max_tries EmptyString EmptyString.

End BannerFixtures.

(** ** The other methods of the two scanners *)

(** tls.go: [Description], [Validate], [Help], [GetName], [GetTrigger] and
    [InitPerSender].  [GetName] and [GetTrigger] read through
    [s.config], which is nil until [Init] has stored the flags. *)
Module tls_methods.

Definition Description : string := "Perform a TLS handshake".

Definition Validate (f : TLSFlags) (args : list string) : option error := None.

Definition Help (f : TLSFlags) : string := EmptyString.

Definition GetName (s : tls.TLSScanner) : Outcome string :=
  match tls.config s with
  | None => Panic nil_dereference
  | Some cfg => Return (Name (TLSFlags_BaseFlags cfg))
  end.

Definition GetTrigger (s : tls.TLSScanner) : Outcome string :=
  match tls.config s with
  | None => Panic nil_dereference
  | Some cfg => Return (Trigger (TLSFlags_BaseFlags cfg))
  end.

Definition InitPerSender (s : tls.TLSScanner) (senderID : Z) : option error := None.

End tls_methods.

(** banner/scanner.go: the same methods of the banner scanner. *)
Module banner_methods.

Definition Description : string :=
  "Fetch a raw banner by sending a static probe and checking the result against a regular expression".

Definition Validate (f : Flags) (args : list string) : option error := None.

Definition Help (f : Flags) : string := EmptyString.

Definition GetName {GO : GoPackages} (scanner : banner.Scanner) : Outcome string :=
  match banner.config scanner with
  | None => Panic nil_dereference
  | Some cfg => Return (Name (Flags_BaseFlags cfg))
  end.

Definition GetTrigger {GO : GoPackages} (scanner : banner.Scanner) : Outcome string :=
  match banner.config scanner with
  | None => Panic nil_dereference
  | Some cfg => Return (Trigger (Flags_BaseFlags cfg))
  end.

Definition InitPerSender {GO : GoPackages} (scanner : banner.Scanner)
    (senderID : Z) : option error := None.

End banner_methods.

(** ** The calls of a banner scan, in closed form

    These definitions are used to state what [banner.Scan] does on the
    network, not to define it. *)
Module Calls.

Definition is_EvClose (ev : Event) : bool :=
  match ev with EvClose => true | _ => false end.

(** An [Open] that gave a connection. *)
Definition is_EvOpen_ok (ev : Event) : bool :=
  match ev with EvOpen None => true | _ => false end.

(** The first [m] calls of [Open]. *)
Definition open_events (target : ScanTarget) (m : nat) : Trace :=
  map (fun i => EvOpen (Open target i)) (seq 0 m).

(** The calls of the try number [j] of the probe/read loop: a [Write] if
    there is a probe, then a [ReadAvailable]. *)
Definition try_events (target : ScanTarget) (probe : list byte) (j : nat) : Trace :=
  (if 0 <? len_bytes probe then [EvWrite probe (Write target j)] else [])
  ++ [EvReadAvailable (fst (ReadAvailable target j)) (snd (ReadAvailable target j))].

(** The error on which the try number [j] fails, if it does: that of the
    [Write], else that of the [ReadAvailable] unless it is [io.EOF]. *)
Definition try_error (target : ScanTarget) (probe : list byte) (j : nat)
  : option error :=
  banner.or_else
    (if 0 <? len_bytes probe then Write target j else None)
    (if banner.read_failed (snd (ReadAvailable target j))
     then snd (ReadAvailable target j) else None).

(** The first [m] tries. *)
Definition probe_events (target : ScanTarget) (probe : list byte) (m : nat) : Trace :=
  flat_map (try_events target probe) (seq 0 m).

(** The calls of the TLS set-up of lines 157-167, the error on which it
    fails, and the result that it leaves. *)
Definition tls_events (target : ScanTarget) (cfg : Flags) : Trace :=
  if UseTLS cfg then
    match GetTLSConnection target with
    | Some e => [EvGetTLSConnection (Some e)]
    | None => [EvGetTLSConnection None; EvHandshake (Handshake target)]
    end
  else [].

Definition tls_error (target : ScanTarget) (cfg : Flags) : option error :=
  if UseTLS cfg
  then banner.or_else (GetTLSConnection target) (Handshake target)
  else None.

Definition tls_Results (target : ScanTarget) (cfg : Flags) : banner.Results :=
  if UseTLS cfg then
    {| banner.Banner := EmptyString; banner.Length := 0;
       banner.BannerBase64 := EmptyString;
       banner.TLSLog := GetTLSConnection_log target |}
  else banner.empty_Results.

(** The flags with another value of [OnlyBASE64]. *)
Definition with_OnlyBASE64 (b : bool) (cfg : Flags) : Flags :=
  {| Flags_BaseFlags := Flags_BaseFlags cfg;
     Probe := Probe cfg;
     Pattern := Pattern cfg;
     MaxTries := MaxTries cfg;
     UseTLS := UseTLS cfg;
     OnlyBASE64 := b;
     ProbeBASE64 := ProbeBASE64 cfg;
     SingleContains := SingleContains cfg;
     SingleContainsString := SingleContainsString cfg |}.

(** A result with its [Banner] field emptied. *)
Definition blank_Results (r : banner.Results) : banner.Results :=
  {| banner.Banner := EmptyString;
     banner.Length := banner.Length r;
     banner.BannerBase64 := banner.BannerBase64 r;
     banner.TLSLog := banner.TLSLog r |}.

Definition blank_Banner (out : Outcome banner.ScanReturn) : Outcome banner.ScanReturn :=
  match out with
  | Return (st, banner.ResultsPtr r, err) =>
      Return (st, banner.ResultsPtr (blank_Results r), err)
  | Return (st, banner.ResultsPtrPtr r, err) =>
      Return (st, banner.ResultsPtrPtr (blank_Results r), err)
  | _ => out
  end.

(** The characters that [hex.EncodeToString] writes, and their values. *)
Definition is_lower_hex (c : ascii) : bool :=
  existsb (Ascii.eqb c) hextable.

Definition hex_value (c : ascii) : N :=
  let n := N_of_ascii c in
  if (48 <=? n)%N && (n <=? 57)%N then n - 48 else n - 87.

End Calls.

(** ** More concrete targets *)

Module MoreFixtures.
Import Fixtures BannerFixtures.

Definition broken_pipe : error := NetError IOFailure "broken pipe".

(** A server that accepts and never answers: every read times out. *)
Definition mute_server : ScanTarget :=
  tcp_target (fun _ => None) (fun _ => None) (fun _ => ([], Some timeout_error)).

(** A server that accepts and resets: every write fails. *)
Definition deaf_server : ScanTarget :=
  tcp_target (fun _ => None) (fun _ => Some broken_pipe) (fun _ => ([], None)).

(** A server that accepts at the second attempt and fails the TLS
    handshake after its ServerHello. *)
Definition tls_failing_server : ScanTarget :=
  {| Open := fun k => match k with O => Some timeout_error | S _ => None end;
     OpenTLS := (None, Some refused_error);
     GetTLSConnection := None;
     GetTLSConnection_log := Some full_log;
     Handshake := Some handshake_error;
     Write := fun _ => None;
     ReadAvailable := fun _ => (ssh_banner, None) |}.

(** The flags of an SSH scan over TLS. *)
Definition tls_ssh_flags (max_tries : Z) : Flags :=
  {| Flags_BaseFlags := base;
     Probe := Probe (ssh_flags max_tries);
     Pattern := Pattern (ssh_flags max_tries);
     MaxTries := max_tries;
     UseTLS := true;
     OnlyBASE64 := false;
     ProbeBASE64 := EmptyString;
     SingleContains := EmptyString;
     SingleContainsString := EmptyString |}.

(** Flags with both probes set: the literal one is the two characters
    backslash and n, the base64 one is not base64. *)
Definition two_probes_flags : Flags :=
  {| Flags_BaseFlags := base;
     Probe := Probe (ssh_flags 1);
     Pattern := EmptyString;
     MaxTries := 1;
     UseTLS := false;
     OnlyBASE64 := false;
     ProbeBASE64 := "!";
     SingleContains := EmptyString;
     SingleContainsString := EmptyString |}.

End MoreFixtures.

(** * Properties *)

(** ** The Go values *)

Example hex_example :
  hex_EncodeToString [x00; x0f; xa5; xff]%byte = "000fa5ff".
Proof. reflexivity. Qed.

Example FormatUint_example :
  strconv_FormatUint10 0 = "0" /\ strconv_FormatUint10 1234567890 = "1234567890".
Proof. split; reflexivity. Qed.

Example Uint64_example :
  big_Int_Uint64 (2 ^ 64 + 5) = 5 /\ big_Int_String (2 ^ 64 + 5) = "18446744073709551621".
Proof. split; reflexivity. Qed.

Example base64_examples :
  GoSubset.DecodeString "MjIwIA==" = (list_byte_of_string "220 ", None)
  /\ GoSubset.EncodeToString (list_byte_of_string "220 ") = "MjIwIA=="
  /\ GoSubset.DecodeString "TWFu" = (list_byte_of_string "Man", None)
  /\ GoSubset.DecodeString "TWE=" = (list_byte_of_string "Ma", None)
  /\ GoSubset.DecodeString "!" = ([], Some (CorruptInputError 0))
  /\ GoSubset.DecodeString "TWE" = ([], Some (CorruptInputError 0))
  /\ GoSubset.DecodeString "====" = ([], Some (CorruptInputError 0)).
Proof. repeat split; reflexivity. Qed.

(** ** Lengths and statuses *)

Lemma len_string_pos (s : string) :
  (0 <? len_string s) = negb (String.eqb s EmptyString).
Proof. destruct s; reflexivity. Qed.

Lemma len_string_zero (s : string) :
  (len_string s =? 0) = String.eqb s EmptyString.
Proof. destruct s; reflexivity. Qed.

Lemma len_bytes_pos (b : list byte) :
  (0 <? len_bytes b) = match b with [] => false | _ :: _ => true end.
Proof. destruct b; reflexivity. Qed.

Lemma eqb_empty_false (s : string) :
  s <> EmptyString -> String.eqb s EmptyString = false.
Proof. intro H. apply String.eqb_neq. exact H. Qed.

Section DerivedStatus.
Context {ES : ErrorStatus}.


Lemma TryGetScanStatus_not_NOTCONTAIN (e : error) :
  TryGetScanStatus e <> SCAN_SUCCESS_NOTCONTAIN.
Proof.
  intro H. pose proof (TryGetScanStatus_failure e) as D.
  rewrite H in D. discriminate.
Qed.

End DerivedStatus.

(** ** The TLS scanner *)

Module tls_facts.
Import tls.

(** The loop over the chain stops at the first match: it returns exactly
    when some certificate of the chain matches. *)
Lemma range_Chain_existsb matches chain :
  range_Chain matches chain = existsb matches chain.
Proof.
  induction chain as [|value chain IH]; simpl.
  - reflexivity.
  - destruct (matches value); [reflexivity | exact IH].
Qed.

(** The certificate at which the loop returns is the first matching one. *)
Lemma range_Chain_first matches chain :
  range_Chain matches chain = true ->
  exists before value after,
    chain = before ++ value :: after
    /\ matches value = true
    /\ forall c, In c before -> matches c = false.
Proof.
  induction chain as [|v chain IH]; simpl; [discriminate|].
  destruct (matches v) eqn:Hv.
  - intros _. exists [], v, chain. repeat split; auto. intros c [].
  - intro H. destruct (IH H) as (before & value & after & -> & Hm & Hb).
    exists (v :: before), value, after. repeat split; auto.
    intros c [<- | Hin]; auto.
Qed.

Lemma filter_case_presented matches log :
  filter_case matches (Some log) =
  if existsb matches (presented log)
  then Return (SCAN_SUCCESS, TLSLogPtr (Some log), None)
  else Return (SCAN_SUCCESS_NOTCONTAIN, nil_result, None).
Proof.
  unfold filter_case, presented. simpl.
  destruct (matches _); [reflexivity|]. simpl.
  rewrite range_Chain_existsb.
  destruct (Chain _); reflexivity.
Qed.

Section WithStatus.
Context {ES : ErrorStatus}.

(** On a handshake that succeeded, [Scan] runs the case of the first
    configured filter of the [switch], and no other. *)
Lemma Scan_answer_first_configured cfg c :
  Scan_answer cfg (Some c) None =
  match first_configured_filter cfg with
  | Some matches => filter_case matches (GetLog c)
  | None => Return (SCAN_SUCCESS, TLSLogPtr (GetLog c), None)
  end.
Proof.
  unfold Scan_answer, first_configured_filter.
  rewrite !len_string_pos.
  repeat (match goal with |- context [negb ?b] => destruct b end; simpl; try reflexivity).
Qed.

Lemma Scan_eq cfg t conn err :
  OpenTLS t = (conn, err) ->
  fst (Scan {| config := Some cfg |} t) = Scan_answer cfg conn err.
Proof. intro H. unfold Scan. simpl. rewrite H. reflexivity. Qed.

End WithStatus.

(** The serial number is compared through its low 64 bits. *)
Lemma serial_matches_spec f value :
  serial_matches f value = true <->
  f = strconv_FormatUint10 (Z.abs (SerialNumber (Parsed value)) mod 2 ^ 64).
Proof. unfold serial_matches, big_Int_Uint64. apply String.eqb_eq. Qed.

Lemma FormatUint10_String (x : Z) :
  0 <= x -> strconv_FormatUint10 x = big_Int_String x.
Proof.
  intros Hx. destruct x as [|p|p]; [reflexivity | reflexivity | lia].
Qed.

(** For a serial number that fits 64 bits the comparison is that of the
    decimal representations. *)
Lemma serial_matches_small f value :
  0 <= SerialNumber (Parsed value) < 2 ^ 64 ->
  (serial_matches f value = true <-> f = big_Int_String (SerialNumber (Parsed value))).
Proof.
  intros H. rewrite serial_matches_spec.
  rewrite Z.abs_eq by lia. rewrite Z.mod_small by lia.
  rewrite FormatUint10_String by lia. reflexivity.
Qed.

End tls_facts.

Import tls_facts.

Example tls_fixture_fingerprints :
  tls.md5_matches Fixtures.md5_of_leaf Fixtures.leaf = true
  /\ tls.sha1_matches Fixtures.sha1_of_leaf Fixtures.leaf = true
  /\ tls.sha1_matches Fixtures.sha1_of_root Fixtures.root = true
  /\ tls.sha1_matches Fixtures.sha1_of_root Fixtures.leaf = false.
Proof. repeat split; reflexivity. Qed.

(** C2. When [OpenTLS] fails with an error [e]: if the connection has a
    handshake log and that log holds a ServerHello, [Scan] returns the status
    derived from [e], that log, and [e]; if no ServerHello was captured (no
    connection, no log, or a log without ServerHello), it returns the status
    derived from [e], no result, and [e]. *)
Theorem C2_tls_partial_detection {ES : ErrorStatus}
    (cfg : TLSFlags) (t : ScanTarget) (conn : option TLSConnection) (e : error) :
  OpenTLS t = (conn, Some e) ->
  (forall c log h,
      conn = Some c -> GetLog c = Some log ->
      ServerHello (HandshakeLog log) = Some h ->
      fst (tls.Scan {| tls.config := Some cfg |} t)
      = Return (TryGetScanStatus e, tls.TLSLogPtr (Some log), Some e))
  /\ ((forall c log,
         conn = Some c -> GetLog c = Some log ->
         ServerHello (HandshakeLog log) = None) ->
      fst (tls.Scan {| tls.config := Some cfg |} t)
      = Return (TryGetScanStatus e, tls.nil_result, Some e)).
Proof.
  intro Hopen. split.
  - intros c log h -> Hlog Hh.
    rewrite (Scan_eq cfg t Hopen). simpl. rewrite Hlog, Hh. reflexivity.
  - intro Hnone. rewrite (Scan_eq cfg t Hopen). simpl.
    destruct conn as [c|]; [|reflexivity].
    destruct (GetLog c) as [log|] eqn:Hlog; [|reflexivity].
    rewrite (Hnone c log eq_refl Hlog). reflexivity.
Qed.

Lemma C2_tls_partial_detection_witness :
  fst (tls.Scan (ES := spec_ErrorStatus)
         (Fixtures.tls_scanner (Fixtures.tls_flags "" "" "" "")) Fixtures.tls_partial)
  = Return (SCAN_UNKNOWN_ERROR, tls.TLSLogPtr (Some Fixtures.full_log),
            Some Fixtures.handshake_error).
Proof.
  exact (proj1 (@C2_tls_partial_detection spec_ErrorStatus
                  (Fixtures.tls_flags "" "" "" "") Fixtures.tls_partial
                  (Some {| GetLog := Some Fixtures.full_log |})
                  Fixtures.handshake_error eq_refl)
           {| GetLog := Some Fixtures.full_log |} Fixtures.full_log Fixtures.hello
           eq_refl eq_refl eq_refl).
Defined.

Example tls_silent_failure :
  fst (tls.Scan (ES := spec_ErrorStatus)
         (Fixtures.tls_scanner (Fixtures.tls_flags "" "" "" "")) Fixtures.tls_silent)
  = Return (SCAN_IO_TIMEOUT, tls.nil_result, Some Fixtures.timeout_error).
Proof. reflexivity. Qed.

(** C4. The serial-number filter compares the configured value with the
    decimal form of the low 64 bits of the serial number, not of the
    serial number: the leaf whose serial number is 2^64 + 5, written
    18446744073709551621 in decimal, is a match for the filter 5 and is
    not a match for the filter 18446744073709551621. *)
Theorem C4_serial_filter_truncates :
  SerialNumber (Parsed Fixtures.leaf) = 18446744073709551621
  /\ big_Int_String (SerialNumber (Parsed Fixtures.leaf)) = "18446744073709551621"
  /\ fst (tls.Scan (ES := spec_ErrorStatus)
            (Fixtures.tls_scanner (Fixtures.tls_flags "" "" "" "5"))
            Fixtures.tls_completed)
     = Return (SCAN_SUCCESS, tls.TLSLogPtr (Some Fixtures.full_log), None)
  /\ fst (tls.Scan (ES := spec_ErrorStatus)
            (Fixtures.tls_scanner (Fixtures.tls_flags "" "" "" "18446744073709551621"))
            Fixtures.tls_completed)
     = Return (SCAN_SUCCESS_NOTCONTAIN, tls.nil_result, None).
Proof. repeat split; vm_compute; reflexivity. Qed.

Lemma existsb_false_iff {A} (p : A -> bool) (l : list A) :
  existsb p l = false <-> forall x, In x l -> p x = false.
Proof.
  induction l as [|a l IH]; simpl.
  - split; [intros _ x [] | reflexivity].
  - rewrite orb_false_iff, IH. split.
    + intros [Ha Hl] x [<- | Hx]; auto.
    + intros H. split; [apply H; left; reflexivity | intros x Hx; apply H; right; exact Hx].
Qed.

(** C8. On a handshake that succeeded, the filters are tried in the order
    MD5, SHA1, SHA256, serial number and only the first configured one is
    evaluated.  In particular, with an MD5 filter and a SHA1 filter both
    configured, a certificate that matches the SHA1 filter while no
    certificate matches the MD5 filter yields SUCCESS_NOTCONTAIN. *)
Theorem C8_filter_priority {ES : ErrorStatus}
    (cfg : TLSFlags) (t : ScanTarget) (c : TLSConnection) (log : zgrab2.TLSLog) :
  OpenTLS t = (Some c, None) ->
  GetLog c = Some log ->
  let scan := fst (tls.Scan {| tls.config := Some cfg |} t) in
  (FilterFingerprintMD5 cfg <> EmptyString ->
   scan = tls.filter_case (tls.md5_matches (FilterFingerprintMD5 cfg)) (Some log))
  /\ (FilterFingerprintMD5 cfg = EmptyString ->
      FilterFingerprintSHA1 cfg <> EmptyString ->
      scan = tls.filter_case (tls.sha1_matches (FilterFingerprintSHA1 cfg)) (Some log))
  /\ (FilterFingerprintMD5 cfg = EmptyString ->
      FilterFingerprintSHA1 cfg = EmptyString ->
      FilterFingerprintSHA256 cfg <> EmptyString ->
      scan = tls.filter_case (tls.sha256_matches (FilterFingerprintSHA256 cfg)) (Some log))
  /\ (FilterFingerprintMD5 cfg = EmptyString ->
      FilterFingerprintSHA1 cfg = EmptyString ->
      FilterFingerprintSHA256 cfg = EmptyString ->
      FilterFingerprintSerial cfg <> EmptyString ->
      scan = tls.filter_case (tls.serial_matches (FilterFingerprintSerial cfg)) (Some log))
  /\ (FilterFingerprintMD5 cfg <> EmptyString ->
      FilterFingerprintSHA1 cfg <> EmptyString ->
      (exists cert, In cert (tls.presented log)
                    /\ tls.sha1_matches (FilterFingerprintSHA1 cfg) cert = true) ->
      (forall cert, In cert (tls.presented log) ->
                    tls.md5_matches (FilterFingerprintMD5 cfg) cert = false) ->
      scan = Return (SCAN_SUCCESS_NOTCONTAIN, tls.nil_result, None)).
Proof.
  intros Hopen Hlog scan. subst scan.
  rewrite (Scan_eq cfg t Hopen), Scan_answer_first_configured, Hlog.
  unfold tls.first_configured_filter.
  repeat split.
  - intros H1. rewrite (eqb_empty_false H1). reflexivity.
  - intros -> H2. rewrite (eqb_empty_false H2). reflexivity.
  - intros -> -> H3. rewrite (eqb_empty_false H3). reflexivity.
  - intros -> -> -> H4. rewrite (eqb_empty_false H4). reflexivity.
  - intros H1 _ _ Hmd5. rewrite (eqb_empty_false H1). cbn [negb].
    rewrite filter_case_presented.
    rewrite (proj2 (existsb_false_iff _ _) Hmd5). reflexivity.
Qed.

Lemma C8_filter_priority_witness :
  fst (tls.Scan (ES := spec_ErrorStatus)
         (Fixtures.tls_scanner
            (Fixtures.tls_flags "00000000000000000000000000000000"
               Fixtures.sha1_of_leaf "" ""))
         Fixtures.tls_completed)
  = Return (SCAN_SUCCESS_NOTCONTAIN, tls.nil_result, None).
Proof.
  refine (proj2 (proj2 (proj2 (proj2
    (@C8_filter_priority spec_ErrorStatus
       (Fixtures.tls_flags "00000000000000000000000000000000"
          Fixtures.sha1_of_leaf "" "")
       Fixtures.tls_completed {| GetLog := Some Fixtures.full_log |}
       Fixtures.full_log eq_refl eq_refl)))) _ _ _ _).
  - discriminate.
  - discriminate.
  - exists Fixtures.leaf. split; [left; reflexivity | reflexivity].
  - intros cert [<- | [<- | [<- | []]]]; reflexivity.
Defined.

(** C9. On a handshake that succeeded, with a filter configured: when the
    leaf does not match, the chain is searched in order and its first
    matching certificate yields SUCCESS with the full log; when neither the
    leaf nor any certificate of the chain matches, [Scan] returns
    SUCCESS_NOTCONTAIN with no result and no error. *)
Theorem C9_chain_fallback {ES : ErrorStatus}
    (cfg : TLSFlags) (t : ScanTarget) (c : TLSConnection) (log : zgrab2.TLSLog)
    (matches : tls_SimpleCertificate -> bool) :
  OpenTLS t = (Some c, None) ->
  GetLog c = Some log ->
  tls.first_configured_filter cfg = Some matches ->
  let scan := fst (tls.Scan {| tls.config := Some cfg |} t) in
  let certs := ServerCertificates (HandshakeLog log) in
  (matches (Certificate certs) = false ->
   forall before value after,
     Chain certs = before ++ value :: after ->
     (forall x, In x before -> matches x = false) ->
     matches value = true ->
     tls.range_Chain matches (Chain certs) = true
     /\ scan = Return (SCAN_SUCCESS, tls.TLSLogPtr (Some log), None))
  /\ ((forall cert, In cert (tls.presented log) -> matches cert = false) ->
      scan = Return (SCAN_SUCCESS_NOTCONTAIN, tls.nil_result, None))
  /\ scan = (if existsb matches (tls.presented log)
             then Return (SCAN_SUCCESS, tls.TLSLogPtr (Some log), None)
             else Return (SCAN_SUCCESS_NOTCONTAIN, tls.nil_result, None)).
Proof.
  intros Hopen Hlog Hf scan certs. subst scan.
  rewrite (Scan_eq cfg t Hopen), Scan_answer_first_configured, Hf, Hlog.
  rewrite filter_case_presented.
  assert (Hex : forall before value after,
             Chain certs = before ++ value :: after ->
             matches value = true -> existsb matches (Chain certs) = true).
  { intros before value after Hc Hv. rewrite Hc, existsb_app. simpl.
    rewrite Hv. apply orb_true_r. }
  repeat split.
  - rewrite range_Chain_existsb. eapply Hex; eassumption.
  - unfold tls.presented. simpl. fold certs.
    rewrite (Hex before value after) by assumption.
    rewrite orb_true_r. reflexivity.
  - intros Hnone. rewrite (proj2 (existsb_false_iff _ _) Hnone). reflexivity.
Qed.

Lemma C9_chain_fallback_witness :
  tls.range_Chain (tls.sha1_matches Fixtures.sha1_of_root)
    [Fixtures.intermediate; Fixtures.root] = true
  /\ fst (tls.Scan (ES := spec_ErrorStatus)
            (Fixtures.tls_scanner (Fixtures.tls_flags "" Fixtures.sha1_of_root "" ""))
            Fixtures.tls_completed)
     = Return (SCAN_SUCCESS, tls.TLSLogPtr (Some Fixtures.full_log), None).
Proof.
  refine (proj1
    (@C9_chain_fallback spec_ErrorStatus
       (Fixtures.tls_flags "" Fixtures.sha1_of_root "" "")
       Fixtures.tls_completed {| GetLog := Some Fixtures.full_log |}
       Fixtures.full_log (tls.sha1_matches Fixtures.sha1_of_root)
       eq_refl eq_refl eq_refl)
    eq_refl [Fixtures.intermediate] Fixtures.root [] eq_refl _ eq_refl).
  intros x [<- | []]. reflexivity.
Defined.

(** ** package bytes *)

Lemma byte_eqb_eq (a b : byte) : byte_eqb a b = true <-> a = b.
Proof.
  unfold byte_eqb. split.
  - apply Byte.byte_dec_bl.
  - apply Byte.byte_dec_lb.
Qed.

Lemma HasPrefix_spec (s prefix : list byte) :
  HasPrefix s prefix = true <-> exists post, s = prefix ++ post.
Proof.
  revert s. induction prefix as [|p prefix IH]; intros s; simpl.
  - split; [intros _; exists s; reflexivity | reflexivity].
  - destruct s as [|c s].
    + split; [discriminate | intros [post H]; discriminate].
    + rewrite andb_true_iff, byte_eqb_eq, IH. split.
      * intros [-> [post ->]]. exists post. reflexivity.
      * intros [post H]. injection H as -> ->. split; [reflexivity | exists post; reflexivity].
Qed.

(** [bytes.Contains] decides whether the subslice occurs in the slice. *)
Lemma Contains_spec (b subslice : list byte) :
  Contains b subslice = true <-> exists pre post, b = pre ++ subslice ++ post.
Proof.
  induction b as [|c b IH].
  - simpl. rewrite orb_false_r, HasPrefix_spec. split.
    + intros [post H]. exists [], post. exact H.
    + intros [pre [post H]]. destruct pre; [exists post; exact H | discriminate].
  - change (Contains (c :: b) subslice)
      with (HasPrefix (c :: b) subslice || Contains b subslice).
    rewrite orb_true_iff, HasPrefix_spec, IH. split.
    + intros [[post H] | [pre [post H]]].
      * exists [], post. exact H.
      * exists (c :: pre), post. rewrite H. reflexivity.
    + intros [pre [post H]]. destruct pre as [|c' pre].
      * left. exists post. exact H.
      * right. injection H as _ H. exists pre, post. exact H.
Qed.

Lemma Contains_nil (b : list byte) : Contains b [] = true.
Proof. destruct b; reflexivity. Qed.

(** ** Traces *)

Lemma count_app p (tr tr' : Trace) :
  count p (tr ++ tr') = (count p tr + count p tr')%nat.
Proof. unfold count. rewrite filter_app, length_app. reflexivity. Qed.

Lemma count_snoc p (tr : Trace) ev :
  count p (tr ++ [ev]) = (count p tr + if p ev then 1 else 0)%nat.
Proof. rewrite count_app. unfold count. simpl. destruct (p ev); reflexivity. Qed.

Lemma last_answer_snoc sel (tr : Trace) ev :
  banner.last_answer sel (tr ++ [ev]) =
  match sel ev with Some r => r | None => banner.last_answer sel tr end.
Proof. unfold banner.last_answer. rewrite fold_left_app. reflexivity. Qed.

Lemma last_answer_app_other sel (tr evs : Trace) :
  Forall (fun ev => sel ev = None) evs ->
  banner.last_answer sel (tr ++ evs) = banner.last_answer sel tr.
Proof.
  intro H. revert tr. induction H as [|ev evs Hev _ IH]; intro tr.
  - rewrite app_nil_r. reflexivity.
  - change (ev :: evs) with ([ev] ++ evs). rewrite app_assoc, IH.
    rewrite last_answer_snoc, Hev. reflexivity.
Qed.

(** ** The banner scanner: the two loops *)

Module banner_facts.
Import banner.

Lemma is_EvOpen_others ev :
  is_EvOpen ev = true ->
  sel_TLS ev = None /\ sel_Write ev = None /\ sel_Read ev = None
  /\ is_EvWrite ev = false /\ is_EvReadAvailable ev = false.
Proof. destruct ev; simpl; intro H; try discriminate; repeat split. Qed.

Section Loops.
Context {GO : GoPackages} {ES : ErrorStatus}.
Variable target : ScanTarget.
Variable cfg : Flags.

(** Past [MaxTries] a loop is left at once. *)
Lemma open_loop_done fuel try c err tr :
  MaxTries cfg <= try ->
  open_loop target cfg fuel try c err tr = Some (c, err, tr).
Proof.
  intro H. assert (G : (try <? MaxTries cfg) = false) by (apply Z.ltb_ge; exact H).
  destruct fuel; simpl; rewrite G; reflexivity.
Qed.

Lemma probe_loop_done probe fuel try err ret readerr tr :
  MaxTries cfg <= try ->
  probe_loop target cfg probe fuel try err ret readerr tr
  = Some (err, ret, readerr, tr).
Proof.
  intro H. assert (G : (try <? MaxTries cfg) = false) by (apply Z.ltb_ge; exact H).
  destruct fuel; simpl; rewrite G; reflexivity.
Qed.

(** The fuel given by [Scan] is enough: the loops end. *)
Lemma open_loop_ends fuel : forall try c err tr,
  (Z.to_nat (MaxTries cfg - try) <= fuel)%nat ->
  exists r, open_loop target cfg fuel try c err tr = Some r.
Proof.
  induction fuel as [|fuel IH]; intros try c err tr Hfuel.
  - eexists. apply open_loop_done. lia.
  - simpl. destruct (try <? MaxTries cfg) eqn:G; [|eexists; reflexivity].
    apply Z.ltb_lt in G.
    destruct (Open target (count is_EvOpen tr)); [|eexists; reflexivity].
    apply IH. lia.
Qed.

Lemma probe_loop_ends probe fuel : forall try err ret readerr tr,
  (Z.to_nat (MaxTries cfg - try) <= fuel)%nat ->
  exists r, probe_loop target cfg probe fuel try err ret readerr tr = Some r.
Proof.
  induction fuel as [|fuel IH]; intros try err ret readerr tr Hfuel.
  - eexists. apply probe_loop_done. lia.
  - simpl. destruct (try <? MaxTries cfg) eqn:G; [|eexists; reflexivity].
    apply Z.ltb_lt in G.
    unfold conn_Write, conn_ReadAvailable.
    destruct (0 <? len_bytes probe);
      repeat match goal with
        | |- context [ReadAvailable target ?k] =>
            destruct (ReadAvailable target k) as [ret' readerr']
        | |- context [Write target ?k] => destruct (Write target k)
        end;
      try (apply IH; lia);
      destruct err; try (apply IH; lia);
      destruct (read_failed readerr'); try (apply IH; lia); eexists; reflexivity.
Qed.

(** What the first loop leaves: nothing changed if it is not entered;
    otherwise only [Open] calls were made, [err] is the answer to the last
    of them, and [c] is a connection exactly when [err] is nil. *)
Lemma open_loop_spec fuel : forall try c err tr c' err' tr',
  open_loop target cfg fuel try c err tr = Some (c', err', tr') ->
  (MaxTries cfg <= try /\ c' = c /\ err' = err /\ tr' = tr)
  \/ (try < MaxTries cfg
      /\ exists evs,
           tr' = tr ++ evs
           /\ Forall (fun ev => is_EvOpen ev = true) evs
           /\ last_answer sel_Open tr' = err'
           /\ (err' = None <-> c' <> None)).
Proof.
  induction fuel as [|fuel IH]; intros try c err tr c' err' tr'; simpl;
    destruct (try <? MaxTries cfg) eqn:G; try discriminate;
    try (intro H; injection H as <- <- <-; left;
         apply Z.ltb_ge in G; repeat split; assumption).
  apply Z.ltb_lt in G. intro H. right. split; [exact G|].
  destruct (Open target (count is_EvOpen tr)) as [e|] eqn:Ho.
  - apply IH in H as [(Hle & -> & -> & ->) | (Hlt & evs & -> & Hall & Hlast & Hc)].
    + exists [EvOpen (Some e)]. repeat split.
      * constructor; [reflexivity | constructor].
      * apply last_answer_snoc.
      * discriminate.
      * intro H; exfalso; apply H; reflexivity.
    + exists (EvOpen (Some e) :: evs). rewrite <- app_assoc in *. repeat split.
      * constructor; [reflexivity | exact Hall].
      * exact Hlast.
      * apply Hc.
      * apply Hc.
  - injection H as <- <- <-.
    exists [EvOpen None]. repeat split.
    + constructor; [reflexivity | constructor].
    + apply last_answer_snoc.
    + discriminate.
Qed.

(** What the second loop leaves: nothing changed if it is not entered;
    otherwise only [Write] and [ReadAvailable] calls were made, [ret] and
    [readerr] are the answer to the last [ReadAvailable], and [err] is the
    answer to the last [Write] (there is none when the probe is empty). *)
Lemma probe_loop_spec probe fuel : forall try err ret readerr tr err' ret' readerr' tr',
  probe_loop target cfg probe fuel try err ret readerr tr
  = Some (err', ret', readerr', tr') ->
  (MaxTries cfg <= try /\ err' = err /\ ret' = ret /\ readerr' = readerr /\ tr' = tr)
  \/ (try < MaxTries cfg
      /\ exists evs,
           tr' = tr ++ evs
           /\ Forall (fun ev => is_EvWrite ev || is_EvReadAvailable ev = true) evs
           /\ last_answer sel_Read tr' = (if read_failed readerr' then readerr' else None)
           /\ (if 0 <? len_bytes probe
               then last_answer sel_Write tr' = err'
               else err' = err
                    /\ last_answer sel_Write tr' = last_answer sel_Write tr)).
Proof.
  induction fuel as [|fuel IH]; intros try err ret readerr tr err' ret' readerr' tr';
    simpl; destruct (try <? MaxTries cfg) eqn:G; try discriminate;
    try (intro H; injection H as <- <- <- <-; left;
         apply Z.ltb_ge in G; repeat split; assumption).
  apply Z.ltb_lt in G. intro H. right. split; [exact G|].
  (* one iteration *)
  set (w := if 0 <? len_bytes probe then conn_Write target probe tr else (err, tr)) in H.
  destruct w as [err1 trw] eqn:Hw. subst w.
  unfold conn_ReadAvailable in H.
  destruct (ReadAvailable target (count is_EvReadAvailable trw))
    as [ret1 readerr1] eqn:Hr.
  set (tr1 := trw ++ [EvReadAvailable ret1 readerr1]) in *.
  assert (Hevs : exists evs1,
             tr1 = tr ++ evs1
             /\ Forall (fun ev => is_EvWrite ev || is_EvReadAvailable ev = true) evs1
             /\ (if 0 <? len_bytes probe
                 then last_answer sel_Write tr1 = err1
                 else err1 = err
                      /\ last_answer sel_Write tr1 = last_answer sel_Write tr)).
  { subst tr1. destruct (0 <? len_bytes probe).
    - unfold conn_Write in Hw. injection Hw as <- <-.
      eexists [EvWrite probe _; EvReadAvailable ret1 readerr1].
      rewrite <- app_assoc. repeat split.
      + repeat constructor.
      + rewrite app_assoc, !last_answer_snoc. reflexivity.
    - injection Hw as <- <-.
      exists [EvReadAvailable ret1 readerr1]. repeat split.
      + repeat constructor.
      + rewrite last_answer_snoc. reflexivity. }
  destruct Hevs as (evs1 & Htr1 & Hall1 & Hw1).
  assert (Hread1 : last_answer sel_Read tr1
                   = if read_failed readerr1 then readerr1 else None).
  { subst tr1. rewrite last_answer_snoc. reflexivity. }
  assert (Hcases :
            probe_loop target cfg probe fuel (try + 1) err1 ret1 readerr1 tr1
            = Some (err', ret', readerr', tr')
            \/ (err', ret', readerr', tr') = (err1, ret1, readerr1, tr1)).
  { destruct err1; [left; exact H|].
    destruct (read_failed readerr1); [left; exact H|].
    right. injection H as <- <- <- <-. reflexivity. }
  clear H.
  assert (Hnow : (err', ret', readerr', tr') = (err1, ret1, readerr1, tr1)
                 \/ exists evs,
                      tr' = tr1 ++ evs
                      /\ Forall (fun ev => is_EvWrite ev || is_EvReadAvailable ev = true) evs
                      /\ last_answer sel_Read tr'
                         = (if read_failed readerr' then readerr' else None)
                      /\ (if 0 <? len_bytes probe
                          then last_answer sel_Write tr' = err'
                          else err' = err1
                               /\ last_answer sel_Write tr' = last_answer sel_Write tr1)).
  { destruct Hcases as [Hrec | Heq]; [|left; exact Heq].
    apply IH in Hrec as [(_ & -> & -> & -> & ->) | (_ & Hmore)].
    - left. reflexivity.
    - right. exact Hmore. }
  destruct Hnow as [Heq | (evs & -> & Hall & Hread & Hwrite)].
  - injection Heq as -> -> -> ->.
    exists evs1. repeat split; assumption.
  - exists (evs1 ++ evs). rewrite Htr1, <- app_assoc. repeat split.
    + apply Forall_app. split; assumption.
    + rewrite app_assoc, <- Htr1. exact Hread.
    + rewrite app_assoc, <- Htr1.
      destruct (0 <? len_bytes probe).
      * exact Hwrite.
      * destruct Hwrite as [-> ->]. exact Hw1.
Qed.

(** A target that refuses every [Open]: the loop calls [Open] once per
    remaining try, and leaves with the last error. *)
Lemma open_loop_all_fail (e : nat -> error) fuel : forall try c err tr,
  (forall k, Open target k = Some (e k)) ->
  (Z.to_nat (MaxTries cfg - try) <= fuel)%nat ->
  try < MaxTries cfg ->
  let n := Z.to_nat (MaxTries cfg - try) in
  let k := count is_EvOpen tr in
  open_loop target cfg fuel try c err tr
  = Some (None, Some (e (k + n - 1)%nat),
          tr ++ map (fun i => EvOpen (Some (e i))) (seq k n)).
Proof.
  induction fuel as [|fuel IH]; intros try c err tr Hfail Hfuel Hlt n k.
  - exfalso. lia.
  - simpl. apply Z.ltb_lt in Hlt as G. rewrite G.
    fold k. rewrite (Hfail k).
    destruct (Z_lt_le_dec (try + 1) (MaxTries cfg)) as [Hmore | Hlast].
    + pose proof (IH (try + 1) None (Some (e k)) (tr ++ [EvOpen (Some (e k))])
                    Hfail ltac:(lia) Hmore) as Hrec.
      cbv zeta in Hrec. etransitivity; [exact Hrec|].
      rewrite count_snoc. simpl. fold k.
      assert (Hn : n = S (Z.to_nat (MaxTries cfg - (try + 1)))) by (subst n; lia).
      rewrite Hn. simpl. rewrite <- app_assoc. simpl.
      replace (k + 1)%nat with (S k) by lia.
      set (m := Z.to_nat (MaxTries cfg - (try + 1))).
      replace (S k + m - 1)%nat with (k + S m - 1)%nat by lia.
      reflexivity.
    + rewrite open_loop_done by lia.
      assert (Hn : n = 1%nat) by (subst n; lia).
      rewrite Hn. simpl.
      replace (k + 1 - 1)%nat with k by lia.
      reflexivity.
Qed.

End Loops.

(** ** The banner scanner: [Scan] *)

Lemma final_error_close (tr : Trace) :
  final_error (tr ++ [EvClose]) = final_error tr.
Proof. unfold final_error. rewrite !last_answer_snoc. reflexivity. Qed.

Lemma write_read_others ev :
  is_EvWrite ev || is_EvReadAvailable ev = true ->
  sel_Open ev = None /\ sel_TLS ev = None.
Proof. destruct ev; simpl; intro H; try discriminate; split; reflexivity. Qed.

Section Scan.
Context {GO : GoPackages} {ES : ErrorStatus}.
Variable target : ScanTarget.
Variable scanner : Scanner.
Variable cfg : Flags.
Hypothesis tries : 1 <= MaxTries cfg.

(** Where [Scan] has returned before line 192, it returned the error on
    which its calls ended, with the status derived from it; where it goes
    on, its calls ended on no error. *)
Lemma grab_connected_spec tr :
  last_answer sel_Open tr = None ->
  last_answer sel_TLS tr = None ->
  last_answer sel_Write tr = None ->
  match grab_connected target scanner cfg tr with
  | Left out tr' =>
      exists e res, out = Return (TryGetScanStatus e, res, Some e)
                    /\ final_error tr' = Some e
  | Grabbed ret result tr' => final_error tr' = None
  end.
Proof.
  intros HO HT HW. unfold grab_connected.
  set (tls := if UseTLS cfg then _ else _).
  assert (Htls :
            match tls with
            | inl (out, tr') =>
                exists e res, out = Return (TryGetScanStatus e, res, Some e)
                              /\ final_error tr' = Some e
            | inr (_, tr') =>
                last_answer sel_Open tr' = None
                /\ last_answer sel_TLS tr' = None
                /\ last_answer sel_Write tr' = None
            end).
  { subst tls. destruct (UseTLS cfg); [|auto].
    destruct (GetTLSConnection target) as [e|].
    - exists e, nil_result. split; [reflexivity|].
      unfold final_error. rewrite !last_answer_snoc. simpl. rewrite HO. reflexivity.
    - destruct (Handshake target) as [e|].
      + eexists e, _. split; [reflexivity|].
        unfold final_error. rewrite !last_answer_snoc. simpl. rewrite HO. reflexivity.
      + rewrite !last_answer_snoc. simpl. auto. }
  destruct tls as [[out tr'] | [result tr']].
  - destruct Htls as (e & res & -> & Hfin). exists e, res.
    split; [reflexivity|]. rewrite final_error_close. exact Hfin.
  - destruct Htls as (HO' & HT' & HW').
    destruct (@probe_loop_ends target cfg (probe scanner) (Z.to_nat (MaxTries cfg))
                0 None [] None tr') as [[[[err ret] readerr] tr3] Hloop]; [lia|].
    rewrite Hloop.
    apply probe_loop_spec in Hloop
      as [(Hle & _) | (_ & evs & -> & Hall & Hread & Hwrite)]; [lia|].
    assert (HO3 : last_answer sel_Open (tr' ++ evs) = None).
    { rewrite last_answer_app_other; [exact HO'|].
      eapply Forall_impl; [|exact Hall]. intros ev Hev.
      apply (write_read_others ev Hev). }
    assert (HT3 : last_answer sel_TLS (tr' ++ evs) = None).
    { rewrite last_answer_app_other; [exact HT'|].
      eapply Forall_impl; [|exact Hall]. intros ev Hev.
      apply (write_read_others ev Hev). }
    assert (HW3 : last_answer sel_Write (tr' ++ evs) = err).
    { destruct (0 <? len_bytes (probe scanner)); [exact Hwrite|].
      destruct Hwrite as [-> ->]. exact HW'. }
    destruct err as [e|].
    + exists e, nil_result. split; [reflexivity|].
      rewrite final_error_close. unfold final_error.
      rewrite HO3, HT3, HW3. reflexivity.
    + destruct readerr as [e|].
      * simpl in Hread. destruct (is_EOF e) eqn:Heof; simpl in *.
        -- unfold final_error. rewrite HO3, HT3, HW3, Hread. reflexivity.
        -- exists e, nil_result. split; [reflexivity|].
           rewrite final_error_close. unfold final_error.
           rewrite HO3, HT3, HW3, Hread. reflexivity.
      * simpl in Hread. unfold final_error.
        rewrite HO3, HT3, HW3, Hread. reflexivity.
Qed.

Lemma grab_spec :
  match grab target scanner cfg with
  | Left out tr =>
      exists e res, out = Return (TryGetScanStatus e, res, Some e)
                    /\ final_error tr = Some e
  | Grabbed ret result tr => final_error tr = None
  end.
Proof.
  unfold grab.
  destruct (@open_loop_ends target cfg (Z.to_nat (MaxTries cfg)) 0 None None [])
    as [[[c err] tr] Hloop]; [lia|].
  rewrite Hloop.
  apply open_loop_spec in Hloop
    as [(Hle & _) | (_ & evs & -> & Hall & Hlast & Hc)]; [lia|].
  simpl in *.
  destruct err as [e|].
  - exists e, nil_result. split; [reflexivity|].
    unfold final_error. rewrite Hlast. reflexivity.
  - destruct c as [k|]; [|exfalso; apply (proj1 Hc); reflexivity].
    apply grab_connected_spec.
    + exact Hlast.
    + change evs with ([] ++ evs). rewrite last_answer_app_other; [reflexivity|].
      eapply Forall_impl; [|exact Hall]. intros ev Hev.
      apply (is_EvOpen_others ev Hev).
    + change evs with ([] ++ evs). rewrite last_answer_app_other; [reflexivity|].
      eapply Forall_impl; [|exact Hall]. intros ev Hev.
      apply (is_EvOpen_others ev Hev).
Qed.

End Scan.

End banner_facts.

(** ** The banner scanner: examples of the specification *)

Example ssh_scan :
  banner.Scan (GO := go_subset) (ES := spec_ErrorStatus) BannerFixtures.ssh_server
    (BannerFixtures.scanner_of (BannerFixtures.ssh_flags 1))
  = (Return (SCAN_SUCCESS,
             banner.ResultsPtrPtr
               {| banner.Banner := string_of_list_byte BannerFixtures.ssh_banner;
                  banner.Length := 21;
                  banner.BannerBase64 := "U1NILTIuMC1PcGVuU1NIXzguMg0K";
                  banner.TLSLog := None |},
             None),
     [EvOpen None; EvWrite [x0a%byte] None;
      EvReadAvailable BannerFixtures.ssh_banner None; EvClose]).
Proof. vm_compute. reflexivity. Qed.

Example busy_scan :
  fst (banner.Scan (GO := go_subset) (ES := spec_ErrorStatus) BannerFixtures.busy_server
         (BannerFixtures.scanner_of
            (BannerFixtures.banner_flags "" "" 1 "" "220 ")))
  = Return (SCAN_SUCCESS_NOTCONTAIN, banner.nil_result, None).
Proof. vm_compute. reflexivity. Qed.

(** ** The banner scanner: what [Scan] returns *)

Import banner_facts.

Lemma count_EvOpen_map (e : nat -> error) (l : list nat) :
  count is_EvOpen (map (fun i => EvOpen (Some (e i))) l) = List.length l
  /\ count is_EvWrite (map (fun i => EvOpen (Some (e i))) l) = 0%nat
  /\ count is_EvReadAvailable (map (fun i => EvOpen (Some (e i))) l) = 0%nat.
Proof.
  unfold count. induction l as [|i l (IH1 & IH2 & IH3)]; simpl.
  - repeat split.
  - rewrite IH1. repeat split; assumption.
Qed.

Section BannerScan.
Context {GO : GoPackages} {ES : ErrorStatus}.
Variable target : ScanTarget.
Variable scanner : banner.Scanner.
Variable cfg : Flags.
Hypothesis configured : banner.config scanner = Some cfg.

Lemma Scan_unfold :
  banner.Scan target scanner =
  match banner.grab target scanner cfg with
  | banner.Left out tr => (out, tr)
  | banner.Grabbed ret result tr =>
      (banner.classify scanner cfg ret result, tr ++ [EvClose])
  end.
Proof. unfold banner.Scan. rewrite configured. reflexivity. Qed.

Lemma Scan_Grabbed ret result tr :
  banner.grab target scanner cfg = banner.Grabbed ret result tr ->
  banner.Scan target scanner
  = (banner.classify scanner cfg ret result, tr ++ [EvClose]).
Proof. intro H. rewrite Scan_unfold, H. reflexivity. Qed.

(** The three ways out of lines 192-220. *)
Lemma classify_cases re ret result :
  banner.regex scanner = Some re ->
  let stored := banner.store_banner cfg ret result in
  banner.classify scanner cfg ret result
    = Return (SCAN_SUCCESS, banner.ResultsPtrPtr stored, None)
  \/ banner.classify scanner cfg ret result
    = Return (SCAN_SUCCESS_NOTCONTAIN, banner.nil_result, None)
  \/ banner.classify scanner cfg ret result
    = Return (SCAN_PROTOCOL_ERROR, banner.ResultsPtrPtr stored, Some NoMatchError).
Proof.
  intros Hre stored. unfold banner.classify. rewrite Hre. fold stored.
  destruct (_ && _).
  - destruct (regexp_Match re ret); auto.
  - destruct (banner.check_bytes_of cfg) as [check_bytes err_check_bytes].
    destruct (_ && _); [|auto].
    destruct (Contains ret check_bytes); auto.
Qed.

(** With at least one try, [Scan] returns; it returns the error on which
    its calls on the network ended, if any, with the status derived from
    it, and otherwise what lines 192-220 make of the bytes read. *)
Lemma Scan_returns re :
  banner.regex scanner = Some re ->
  1 <= MaxTries cfg ->
  exists st res err tr,
    banner.Scan target scanner = (Return (st, res, err), tr)
    /\ match banner.final_error tr with
       | Some e => err = Some e /\ st = TryGetScanStatus e
       | None =>
           (err = None /\ st = SCAN_SUCCESS /\ res <> banner.nil_result)
           \/ (err = None /\ st = SCAN_SUCCESS_NOTCONTAIN /\ res = banner.nil_result)
           \/ (err = Some NoMatchError /\ st = SCAN_PROTOCOL_ERROR)
       end.
Proof.
  intros Hre Htries. rewrite Scan_unfold.
  pose proof (@grab_spec GO ES target scanner cfg Htries) as Hgrab.
  destruct (banner.grab target scanner cfg) as [out tr | ret result tr].
  - destruct Hgrab as (e & res & -> & Hfin).
    exists (TryGetScanStatus e), res, (Some e), tr.
    split; [reflexivity|]. rewrite Hfin. split; reflexivity.
  - pose proof (classify_cases ret result Hre) as Hc. cbv zeta in Hc.
    destruct Hc as [-> | [-> | ->]];
      eexists _, _, _, _; (split; [reflexivity|]);
      rewrite final_error_close, Hgrab.
    + left. repeat split. discriminate.
    + right; left. repeat split.
    + right; right. split; reflexivity.
Qed.

(** The bytes looked for: the decoding of [SingleContains] when it is not
    empty, else the bytes of [SingleContainsString]. *)
Lemma check_bytes_of_precedence :
  (SingleContains cfg <> EmptyString ->
   banner.check_bytes_of cfg = base64_DecodeString (SingleContains cfg))
  /\ (SingleContains cfg = EmptyString ->
      banner.check_bytes_of cfg
      = (list_byte_of_string (SingleContainsString cfg), None)).
Proof.
  unfold banner.check_bytes_of. rewrite len_string_pos. split.
  - intro H. rewrite (eqb_empty_false H). reflexivity.
  - intros ->. reflexivity.
Qed.

End BannerScan.

(** After [Init] the scanner holds the flags and the compiled pattern. *)
Lemma Init_Return {GO : GoPackages} (s0 scanner : banner.Scanner)
    (flags : ScanFlags) (err : option error) :
  banner.Init s0 flags = Return (scanner, err) ->
  exists cfg re,
    flags = FlagsPtr cfg
    /\ banner.config scanner = Some cfg
    /\ regexp_MustCompile (Pattern cfg) = Some re
    /\ banner.regex scanner = Some re
    /\ err = None.
Proof.
  unfold banner.Init. destruct flags as [cfg | f | m]; try discriminate.
  destruct (regexp_MustCompile (Pattern cfg)) as [re|] eqn:Hre; try discriminate.
  intro H. exists cfg, re.
  destruct (0 <? len_string (Probe cfg)).
  - destruct (strconv_Unquote _) as [p [e|]]; try discriminate.
    injection H as <- <-. repeat split; first [reflexivity | assumption].
  - destruct (0 <? len_string (ProbeBASE64 cfg)).
    + destruct (base64_DecodeString _) as [p [e|]]; try discriminate.
      injection H as <- <-. repeat split; first [reflexivity | assumption].
    + injection H as <- <-. repeat split; first [reflexivity | assumption].
Qed.

(** ** The claims on the banner scanner *)

(** C1 (as amended). When the connection and the probe/read phase succeed
    with response bytes R and a substring filter is configured: the bytes
    looked for are the base64 decoding of single-contain when it is not
    empty, else the bytes of single-contain-string; when they are decoded
    without error and are not empty, [Scan] returns SUCCESS with the result
    if R contains them, and SUCCESS_NOTCONTAIN with no result and no error
    otherwise; when the decoding fails, or yields no bytes, [Scan] returns
    PROTOCOL_ERROR with the result and the pattern-did-not-match error. *)
Theorem C1_substring_filter {GO : GoPackages} {ES : ErrorStatus}
    (target : ScanTarget) (scanner : banner.Scanner) (cfg : Flags)
    (R : list byte) (result : banner.Results) (tr : Trace) :
  banner.config scanner = Some cfg ->
  banner.grab target scanner cfg = banner.Grabbed R result tr ->
  SingleContains cfg <> EmptyString \/ SingleContainsString cfg <> EmptyString ->
  let scan := fst (banner.Scan target scanner) in
  let stored := banner.store_banner cfg R result in
  ((SingleContains cfg <> EmptyString ->
    banner.check_bytes_of cfg = base64_DecodeString (SingleContains cfg))
   /\ (SingleContains cfg = EmptyString ->
       banner.check_bytes_of cfg
       = (list_byte_of_string (SingleContainsString cfg), None)))
  /\ (forall S,
        banner.check_bytes_of cfg = (S, None) -> S <> [] ->
        ((exists pre post, R = pre ++ S ++ post) ->
         scan = Return (SCAN_SUCCESS, banner.ResultsPtrPtr stored, None))
        /\ (~ (exists pre post, R = pre ++ S ++ post) ->
            scan = Return (SCAN_SUCCESS_NOTCONTAIN, banner.nil_result, None)))
  /\ (forall S e,
        banner.check_bytes_of cfg = (S, Some e) ->
        scan = Return (SCAN_PROTOCOL_ERROR, banner.ResultsPtrPtr stored,
                       Some NoMatchError))
  /\ (banner.check_bytes_of cfg = ([], None) ->
      scan = Return (SCAN_PROTOCOL_ERROR, banner.ResultsPtrPtr stored,
                     Some NoMatchError)).
Proof.
  intros Hcfg Hgrab Hfilter scan stored. subst scan.
  rewrite (@Scan_Grabbed _ _ target _ _ Hcfg _ _ _ Hgrab). simpl.
  assert (Hguard : (len_string (SingleContains cfg) =? 0)
                   && (len_string (SingleContainsString cfg) =? 0) = false).
  { rewrite !len_string_zero.
    destruct Hfilter as [H | H]; rewrite (eqb_empty_false H);
      [reflexivity | apply andb_false_r]. }
  unfold banner.classify. rewrite Hguard. fold stored.
  split; [apply check_bytes_of_precedence|].
  split; [|split].
  - intros S HS Hne. rewrite HS. simpl. rewrite len_bytes_pos.
    destruct S as [|b S]; [contradiction|].
    split; intro Hin.
    + apply Contains_spec in Hin. rewrite Hin. reflexivity.
    + destruct (Contains R (b :: S)) eqn:Hc; [|reflexivity].
      exfalso. apply Hin. apply Contains_spec. exact Hc.
  - intros S e HS. rewrite HS. reflexivity.
  - intros HS. rewrite HS. reflexivity.
Qed.

Lemma C1_substring_filter_witness :
  fst (banner.Scan (GO := go_subset) (ES := spec_ErrorStatus)
         BannerFixtures.busy_server
         (BannerFixtures.scanner_of (BannerFixtures.banner_flags "" "" 1 "" "220 ")))
  = Return (SCAN_SUCCESS_NOTCONTAIN, banner.nil_result, None).
Proof.
  refine (proj2 (proj1 (proj2
    (@C1_substring_filter go_subset spec_ErrorStatus
       BannerFixtures.busy_server
       (BannerFixtures.scanner_of (BannerFixtures.banner_flags "" "" 1 "" "220 "))
       (BannerFixtures.banner_flags "" "" 1 "" "220 ")
       BannerFixtures.busy_banner banner.empty_Results
       [EvOpen None; EvReadAvailable BannerFixtures.busy_banner (Some io_EOF)]
       eq_refl eq_refl (or_intror _)))
    (list_byte_of_string "220 ") eq_refl _) _).
  - discriminate.
  - discriminate.
  - intro Hin. apply Contains_spec in Hin. vm_compute in Hin. discriminate.
Defined.

(** C1 as stated fails: with the filter single-contain set to a text that
    is not base64, the connection and the read succeed and [Scan] returns
    PROTOCOL_ERROR. *)
Lemma C1_counterexample :
  SingleContains (BannerFixtures.banner_flags "" "" 1 "!" "") <> EmptyString
  /\ banner.grab (GO := go_subset) (ES := spec_ErrorStatus)
       BannerFixtures.ssh_server
       (BannerFixtures.scanner_of (BannerFixtures.banner_flags "" "" 1 "!" ""))
       (BannerFixtures.banner_flags "" "" 1 "!" "")
     = banner.Grabbed BannerFixtures.ssh_banner banner.empty_Results
         [EvOpen None; EvReadAvailable BannerFixtures.ssh_banner None]
  /\ fst (banner.Scan (GO := go_subset) (ES := spec_ErrorStatus)
            BannerFixtures.ssh_server
            (BannerFixtures.scanner_of (BannerFixtures.banner_flags "" "" 1 "!" "")))
     = Return (SCAN_PROTOCOL_ERROR,
               banner.ResultsPtrPtr
                 (banner.store_banner (GO := go_subset)
                    (BannerFixtures.banner_flags "" "" 1 "!" "")
                    BannerFixtures.ssh_banner banner.empty_Results),
               Some NoMatchError).
Proof.
  split; [discriminate|]. split; vm_compute; reflexivity.
Qed.

(** C7. With no substring filter configured, when the read phase succeeds
    with response bytes R, [Scan] returns SUCCESS with the result if the
    compiled pattern matches R, and PROTOCOL_ERROR with the
    pattern-did-not-match error if it does not; the empty pattern matches
    every R. *)
Theorem C7_pattern_match {GO : GoPackages} {ES : ErrorStatus}
    (target : ScanTarget) (scanner : banner.Scanner) (cfg : Flags)
    (re : Regexp) (R : list byte) (result : banner.Results) (tr : Trace) :
  banner.config scanner = Some cfg ->
  banner.regex scanner = Some re ->
  SingleContains cfg = EmptyString ->
  SingleContainsString cfg = EmptyString ->
  banner.grab target scanner cfg = banner.Grabbed R result tr ->
  let scan := fst (banner.Scan target scanner) in
  let stored := banner.store_banner cfg R result in
  (regexp_Match re R = true ->
   scan = Return (SCAN_SUCCESS, banner.ResultsPtrPtr stored, None))
  /\ (regexp_Match re R = false ->
      scan = Return (SCAN_PROTOCOL_ERROR, banner.ResultsPtrPtr stored,
                     Some NoMatchError))
  /\ (forall s0,
        banner.Init s0 (FlagsPtr cfg) = Return (scanner, None) ->
        Pattern cfg = EmptyString ->
        scan = Return (SCAN_SUCCESS, banner.ResultsPtrPtr stored, None)).
Proof.
  intros Hcfg Hre Hc Hcs Hgrab scan stored. subst scan.
  rewrite (@Scan_Grabbed _ _ target _ _ Hcfg _ _ _ Hgrab). simpl.
  unfold banner.classify. rewrite Hc, Hcs, Hre. simpl. fold stored.
  split; [|split].
  - intros ->. reflexivity.
  - intros ->. reflexivity.
  - intros s0 Hinit Hpat.
    apply Init_Return in Hinit
      as (cfg' & re' & Hflags & _ & Hcompile & Hre' & _).
    injection Hflags as <-. rewrite Hre in Hre'. injection Hre' as <-.
    rewrite Hpat in Hcompile.
    rewrite (@regexp_empty_pattern GO re R Hcompile). reflexivity.
Qed.

Lemma C7_pattern_match_witness :
  fst (banner.Scan (GO := go_subset) (ES := spec_ErrorStatus)
         BannerFixtures.ssh_server
         (BannerFixtures.scanner_of (BannerFixtures.ssh_flags 1)))
  = Return (SCAN_SUCCESS,
            banner.ResultsPtrPtr
              (banner.store_banner (GO := go_subset) (BannerFixtures.ssh_flags 1)
                 BannerFixtures.ssh_banner banner.empty_Results),
            None).
Proof.
  refine (proj1
    (@C7_pattern_match go_subset spec_ErrorStatus
       BannerFixtures.ssh_server
       (BannerFixtures.scanner_of (BannerFixtures.ssh_flags 1))
       (BannerFixtures.ssh_flags 1)
       {| GoSubset.anchored := true; GoSubset.literal := list_byte_of_string "SSH-" |}
       BannerFixtures.ssh_banner banner.empty_Results
       [EvOpen None; EvWrite [x0a%byte] None;
        EvReadAvailable BannerFixtures.ssh_banner None]
       eq_refl eq_refl eq_refl eq_refl eq_refl) _).
  reflexivity.
Defined.

Example empty_pattern_scan :
  fst (banner.Scan (GO := go_subset) (ES := spec_ErrorStatus)
         BannerFixtures.busy_server
         (BannerFixtures.scanner_of (BannerFixtures.banner_flags "" "" 1 "" "")))
  = Return (SCAN_SUCCESS,
            banner.ResultsPtrPtr
              (banner.store_banner (GO := go_subset)
                 (BannerFixtures.banner_flags "" "" 1 "" "")
                 BannerFixtures.busy_banner banner.empty_Results),
            None).
Proof. vm_compute. reflexivity. Qed.

(** C3. With MaxTries = N, N >= 1, and a target whose every [Open] fails,
    [Scan] calls [Open] exactly N times and nothing else, and returns the
    status derived from the error of the last call, no result, and that
    error. *)
Theorem C3_open_retry_bound {GO : GoPackages} {ES : ErrorStatus}
    (target : ScanTarget) (scanner : banner.Scanner) (cfg : Flags)
    (e : nat -> error) :
  banner.config scanner = Some cfg ->
  1 <= MaxTries cfg ->
  (forall k, Open target k = Some (e k)) ->
  let N := Z.to_nat (MaxTries cfg) in
  let last := e (N - 1)%nat in
  let scan := banner.Scan target scanner in
  fst scan = Return (TryGetScanStatus last, banner.nil_result, Some last)
  /\ snd scan = map (fun k => EvOpen (Some (e k))) (seq 0 N)
  /\ Z.of_nat (count is_EvOpen (snd scan)) = MaxTries cfg
  /\ count is_EvWrite (snd scan) = 0%nat
  /\ count is_EvReadAvailable (snd scan) = 0%nat.
Proof.
  intros Hcfg Htries Hfail N last scan.
  assert (Hscan : scan = (Return (TryGetScanStatus last, banner.nil_result, Some last),
                          map (fun k => EvOpen (Some (e k))) (seq 0 N))).
  { subst scan. rewrite (@Scan_unfold _ _ target _ _ Hcfg). unfold banner.grab.
    pose proof (@open_loop_all_fail target cfg e (Z.to_nat (MaxTries cfg))
                  0 None None [] Hfail ltac:(lia) ltac:(lia)) as Hloop.
    cbv zeta in Hloop. rewrite Z.sub_0_r in Hloop.
    change (count is_EvOpen []) with 0%nat in Hloop.
    etransitivity; [|reflexivity]. rewrite Hloop. reflexivity. }
  rewrite Hscan. simpl.
  destruct (count_EvOpen_map e (seq 0 N)) as (H1 & H2 & H3).
  rewrite H1, H2, H3, length_seq. repeat split. subst N. lia.
Qed.

Lemma C3_open_retry_bound_witness :
  banner.Scan (GO := go_subset) (ES := spec_ErrorStatus) BannerFixtures.closed_port
    (BannerFixtures.scanner_of (BannerFixtures.ssh_flags 3))
  = (Return (SCAN_CONNECTION_REFUSED, banner.nil_result, Some Fixtures.refused_error),
     [EvOpen (Some Fixtures.refused_error); EvOpen (Some Fixtures.refused_error);
      EvOpen (Some Fixtures.refused_error)]).
Proof.
  pose proof (@C3_open_retry_bound go_subset spec_ErrorStatus
                BannerFixtures.closed_port
                (BannerFixtures.scanner_of (BannerFixtures.ssh_flags 3))
                (BannerFixtures.ssh_flags 3)
                (fun _ => Fixtures.refused_error)
                eq_refl ltac:(simpl; lia) (fun k => eq_refl)) as H.
  cbv zeta in H. destruct H as (H1 & H2 & _).
  rewrite (surjective_pairing (banner.Scan _ _)), H1, H2. reflexivity.
Defined.

(** C5. Handed the flags of another module, [Init] of the TLS scanner
    returns the mismatched-flags error and leaves the scanner as it was;
    [Init] of the banner scanner does not: it panics on a nil dereference. *)
Theorem C5_init_mismatched_flags {GO : GoPackages} :
  (forall s : tls.TLSScanner,
      tls.Init s banner.NewFlags = (s, Some ErrMismatchedFlags))
  /\ (forall s : banner.Scanner,
         banner.Init s tls.NewFlags = Panic nil_dereference)
  /\ (forall (s : tls.TLSScanner) f,
         tls.Init s (FlagsPtr f) = (s, Some ErrMismatchedFlags))
  /\ (forall (s : tls.TLSScanner) m,
         tls.Init s (OtherFlagsPtr m) = (s, Some ErrMismatchedFlags))
  /\ (forall (s : banner.Scanner) f,
         banner.Init s (TLSFlagsPtr f) = Panic nil_dereference)
  /\ (forall (s : banner.Scanner) m,
         banner.Init s (OtherFlagsPtr m) = Panic nil_dereference).
Proof. repeat split. Qed.

Example banner_Init_own_flags :
  BannerFixtures.init (BannerFixtures.ssh_flags 1)
  = Return (@banner.Build_Scanner go_subset
              (Some (BannerFixtures.ssh_flags 1))
              (Some ({| GoSubset.anchored := true;
                        GoSubset.literal := list_byte_of_string "SSH-" |}
                     : @Regexp go_subset))
              [x0a%byte], None).
Proof. vm_compute. reflexivity. Qed.

(** C10 (as amended). For MaxTries <= 0 the loop that opens the connection
    is not entered, the open error stays nil, and [Scan] defers [Close] on
    a nil connection, which panics, instead of returning an error status;
    it makes no call on the network: nothing is written and nothing is
    read, the probe/read loop being bounded by MaxTries as well.  For
    MaxTries >= 1 an initialised scanner never takes this path: [Scan]
    returns. *)
Theorem C10_max_tries_guard {GO : GoPackages} {ES : ErrorStatus}
    (target : ScanTarget) (scanner : banner.Scanner) (cfg : Flags) :
  banner.config scanner = Some cfg ->
  (MaxTries cfg <= 0 ->
   banner.open_loop target cfg (Z.to_nat (MaxTries cfg)) 0 None None []
   = Some (None, None, [])
   /\ banner.Scan target scanner = (Panic nil_dereference, [])
   /\ forall fuel err ret readerr tr,
        banner.probe_loop target cfg (banner.probe scanner) fuel 0 err ret readerr tr
        = Some (err, ret, readerr, tr))
  /\ (1 <= MaxTries cfg ->
      forall re, banner.regex scanner = Some re ->
      exists r tr, banner.Scan target scanner = (Return r, tr)).
Proof.
  intro Hcfg. split.
  - intro Hle.
    assert (Hloop : banner.open_loop target cfg (Z.to_nat (MaxTries cfg)) 0 None None []
                    = Some (None, None, []))
      by (apply open_loop_done; lia).
    split; [exact Hloop|]. split.
    + rewrite (@Scan_unfold _ _ target _ _ Hcfg). unfold banner.grab.
      rewrite Hloop. reflexivity.
    + intros. apply probe_loop_done. lia.
  - intros Htries re Hre.
    destruct (@Scan_returns _ _ target _ _ Hcfg re Hre Htries)
      as (st & res & err & tr & Hscan & _).
    exists (st, res, err), tr. exact Hscan.
Qed.

Lemma C10_max_tries_guard_witness :
  banner.Scan (GO := go_subset) (ES := spec_ErrorStatus) BannerFixtures.ssh_server
    (BannerFixtures.scanner_of (BannerFixtures.ssh_flags (-1)))
  = (Panic nil_dereference, [])
  /\ exists r tr,
       banner.Scan (GO := go_subset) (ES := spec_ErrorStatus) BannerFixtures.ssh_server
         (BannerFixtures.scanner_of (BannerFixtures.ssh_flags 1))
       = (Return r, tr).
Proof.
  split.
  - refine (proj1 (proj2 (proj1
      (@C10_max_tries_guard go_subset spec_ErrorStatus BannerFixtures.ssh_server
         (BannerFixtures.scanner_of (BannerFixtures.ssh_flags (-1)))
         (BannerFixtures.ssh_flags (-1)) eq_refl) _))).
    simpl. lia.
  - refine (proj2
      (@C10_max_tries_guard go_subset spec_ErrorStatus BannerFixtures.ssh_server
         (BannerFixtures.scanner_of (BannerFixtures.ssh_flags 1))
         (BannerFixtures.ssh_flags 1) eq_refl) _ _ eq_refl).
    simpl. lia.
Defined.

(** C10 as stated fails: with MaxTries = 0 and a probe to send, [Scan]
    panics when it defers [Close] and has neither written to nor read from
    any connection; the probe/read loop would not be entered either. *)
Lemma C10_counterexample :
  MaxTries (BannerFixtures.ssh_flags 0) <= 0
  /\ banner.probe (BannerFixtures.scanner_of (BannerFixtures.ssh_flags 0)) = [x0a%byte]
  /\ banner.Scan (GO := go_subset) (ES := spec_ErrorStatus) BannerFixtures.ssh_server
       (BannerFixtures.scanner_of (BannerFixtures.ssh_flags 0))
     = (Panic nil_dereference, [])
  /\ count is_EvWrite
       (snd (banner.Scan (GO := go_subset) (ES := spec_ErrorStatus)
               BannerFixtures.ssh_server
               (BannerFixtures.scanner_of (BannerFixtures.ssh_flags 0)))) = 0%nat
  /\ count is_EvReadAvailable
       (snd (banner.Scan (GO := go_subset) (ES := spec_ErrorStatus)
               BannerFixtures.ssh_server
               (BannerFixtures.scanner_of (BannerFixtures.ssh_flags 0)))) = 0%nat
  /\ banner.probe_loop BannerFixtures.ssh_server (BannerFixtures.ssh_flags 0)
       [x0a%byte] 1 0 None [] None []
     = Some (None, [], None, []).
Proof. split; [simpl; lia|]. repeat split; vm_compute; reflexivity. Qed.

(** ** Errors and statuses of the two scanners *)





(** ** Supplements *)

(** A target that accepts the first connection, takes the probe and
    answers at once: the read phase succeeds on the first try. *)
Lemma grab_first_try {GO : GoPackages} {ES : ErrorStatus}
    (target : ScanTarget) (scanner : banner.Scanner) (cfg : Flags)
    (R : list byte) (readerr : option error) :
  1 <= MaxTries cfg ->
  UseTLS cfg = false ->
  Open target 0 = None ->
  Write target 0 = None ->
  ReadAvailable target 0 = (R, readerr) ->
  banner.read_failed readerr = false ->
  banner.grab target scanner cfg
  = banner.Grabbed R banner.empty_Results
      (EvOpen None
       :: (if 0 <? len_bytes (banner.probe scanner)
           then [EvWrite (banner.probe scanner) None] else [])
       ++ [EvReadAvailable R readerr]).
Proof.
  intros Htries Htls Hopen Hwrite Hread Hok.
  assert (G : (0 <? MaxTries cfg) = true) by (apply Z.ltb_lt; lia).
  unfold banner.grab, banner.grab_connected.
  destruct (Z.to_nat (MaxTries cfg)) as [|fuel] eqn:Hfuel; [lia|].
  simpl. rewrite G. unfold count. simpl. rewrite Hopen, Htls. simpl.
  unfold banner.conn_Write, banner.conn_ReadAvailable, count.
  destruct (0 <? len_bytes (banner.probe scanner)); simpl;
    rewrite ?Hwrite, Hread, Hok; simpl;
    destruct readerr as [e|]; simpl in *; try rewrite Hok; reflexivity.
Qed.

(** The decimal form is injective on the unsigned integers. *)
Lemma FormatUint10_inj (a b : Z) :
  0 <= a -> 0 <= b ->
  strconv_FormatUint10 a = strconv_FormatUint10 b -> a = b.
Proof.
  intros Ha Hb H. unfold strconv_FormatUint10 in H.
  assert (Hnonnil : forall n, N.to_uint n <> Decimal.Nil).
  { intros [|p]; [discriminate | apply DecimalPos.Unsigned.to_uint_nonnil]. }
  assert (Hu : Some (N.to_uint (Z.to_N a)) = Some (N.to_uint (Z.to_N b))).
  { rewrite <- (@NilZero.usu _ (Hnonnil (Z.to_N a))),
            <- (@NilZero.usu _ (Hnonnil (Z.to_N b))), H. reflexivity. }
  injection Hu as Hu. apply DecimalN.Unsigned.to_uint_inj in Hu. lia.
Qed.

(** A serial number of more than 64 bits is never matched by its own
    decimal form, and is matched by the decimal form of its low 64 bits. *)
Lemma serial_matches_large (value : tls_SimpleCertificate) :
  2 ^ 64 <= SerialNumber (Parsed value) ->
  tls.serial_matches (big_Int_String (SerialNumber (Parsed value))) value = false
  /\ tls.serial_matches
       (big_Int_String (SerialNumber (Parsed value) mod 2 ^ 64)) value = true.
Proof.
  intro Hbig. set (s := SerialNumber (Parsed value)) in *.
  assert (Hm : 0 <= s mod 2 ^ 64 < 2 ^ 64) by (apply Z.mod_pos_bound; lia).
  split.
  - destruct (tls.serial_matches (big_Int_String s) value) eqn:E; [|reflexivity].
    exfalso. apply serial_matches_spec in E. fold s in E.
    rewrite Z.abs_eq in E by lia.
    rewrite <- FormatUint10_String in E by lia.
    apply FormatUint10_inj in E; lia.
  - apply serial_matches_spec. fold s. rewrite Z.abs_eq by lia.
    symmetry. apply FormatUint10_String. lia.
Qed.

(** * More of the two files *)

(** ** The calls of the two loops *)

Import Calls.

Lemma count_map_EvOpen (target : ScanTarget) (l : list nat) :
  count is_EvOpen (map (fun i => EvOpen (Open target i)) l) = List.length l
  /\ count is_EvWrite (map (fun i => EvOpen (Open target i)) l) = 0%nat
  /\ count is_EvReadAvailable (map (fun i => EvOpen (Open target i)) l) = 0%nat
  /\ count is_EvClose (map (fun i => EvOpen (Open target i)) l) = 0%nat.
Proof.
  unfold count. induction l as [|i l (IH1 & IH2 & IH3 & IH4)]; simpl.
  - repeat split.
  - rewrite IH1. repeat split; assumption.
Qed.

Lemma seq_snoc_map {A} (f : nat -> A) (k m : nat) :
  f k :: map f (seq (S k) m) = map f (seq k (S m)).
Proof. reflexivity. Qed.

Section LoopShapes.
Variable target : ScanTarget.
Variable cfg : Flags.

(** The first loop calls [Open] until a call succeeds or the tries are
    used up: [m] calls, of which only the last may have succeeded. *)
Lemma open_loop_shape fuel : forall try c err tr c' err' tr',
  banner.open_loop target cfg fuel try c err tr = Some (c', err', tr') ->
  try < MaxTries cfg ->
  let k := count is_EvOpen tr in
  exists m,
    (1 <= m <= Z.to_nat (MaxTries cfg - try))%nat
    /\ tr' = tr ++ map (fun i => EvOpen (Open target i)) (seq k m)
    /\ err' = Open target (k + m - 1)
    /\ c' = match err' with None => Some (k + m - 1)%nat | Some _ => None end
    /\ (forall i, (k <= i < k + m - 1)%nat -> Open target i <> None)
    /\ (err' <> None -> m = Z.to_nat (MaxTries cfg - try)).
Proof.
  induction fuel as [|fuel IH]; intros try c err tr c' err' tr' H Hlt k.
  - simpl in H. apply Z.ltb_lt in Hlt. rewrite Hlt in H. discriminate.
  - simpl in H. apply Z.ltb_lt in Hlt as G. rewrite G in H. fold k in H.
    destruct (Open target k) as [e|] eqn:Ho.
    + destruct (Z_lt_le_dec (try + 1) (MaxTries cfg)) as [Hmore | Hlast].
      * apply IH in H; [|exact Hmore]. cbv zeta in H.
        rewrite count_snoc in H. simpl in H. fold k in H.
        replace (k + 1)%nat with (S k) in H by lia.
        destruct H as (m & Hm & -> & -> & -> & Hfail & Hall).
        exists (S m).
        split; [lia|]. split; [|split; [|split; [|split]]].
        -- rewrite <- app_assoc, <- seq_snoc_map, Ho. reflexivity.
        -- f_equal. lia.
        -- replace (k + S m - 1)%nat with (S k + m - 1)%nat by lia. reflexivity.
        -- intros i Hi. destruct (Nat.eq_dec i k) as [-> | Hne].
           ++ rewrite Ho. discriminate.
           ++ apply Hfail. lia.
        -- intro Hne. rewrite (Hall Hne). lia.
      * rewrite banner_facts.open_loop_done in H by lia.
        injection H as <- <- <-.
        exists 1%nat. replace (k + 1 - 1)%nat with k by lia.
        split; [lia|]. split; [|split; [|split; [|split]]].
        -- rewrite <- seq_snoc_map, Ho. reflexivity.
        -- symmetry. exact Ho.
        -- reflexivity.
        -- intros i Hi. lia.
        -- intros _. lia.
    + injection H as <- <- <-.
      exists 1%nat. replace (k + 1 - 1)%nat with k by lia.
      split; [lia|]. split; [|split; [|split; [|split]]].
      * rewrite <- seq_snoc_map, Ho. reflexivity.
      * symmetry. exact Ho.
      * reflexivity.
      * intros i Hi. lia.
      * intro Hne. exfalso. apply Hne. reflexivity.
Qed.

Lemma try_events_counts probe (l : list nat) :
  count is_EvReadAvailable (flat_map (try_events target probe) l) = List.length l
  /\ count is_EvWrite (flat_map (try_events target probe) l)
     = (if 0 <? len_bytes probe then List.length l else 0%nat)
  /\ count is_EvOpen (flat_map (try_events target probe) l) = 0%nat
  /\ count is_EvClose (flat_map (try_events target probe) l) = 0%nat.
Proof.
  induction l as [|j l (IH1 & IH2 & IH3 & IH4)].
  - simpl. destruct (0 <? len_bytes probe); repeat split.
  - cbn [flat_map]. rewrite !count_app, IH1, IH2, IH3, IH4.
    unfold try_events, count.
    destruct (0 <? len_bytes probe); simpl; repeat split.
Qed.

(** One try of the second loop. *)
Lemma probe_loop_step probe fuel try err ret readerr tr :
  try < MaxTries cfg ->
  ((0 <? len_bytes probe) = false -> err = None) ->
  ((0 <? len_bytes probe) = true ->
   count is_EvWrite tr = count is_EvReadAvailable tr) ->
  let k := count is_EvReadAvailable tr in
  let err1 := if 0 <? len_bytes probe then Write target k else None in
  let tr1 := tr ++ try_events target probe k in
  banner.probe_loop target cfg probe (S fuel) try err ret readerr tr
  = match try_error target probe k with
    | Some _ =>
        banner.probe_loop target cfg probe fuel (try + 1) err1
          (fst (ReadAvailable target k)) (snd (ReadAvailable target k)) tr1
    | None =>
        Some (err1, fst (ReadAvailable target k), snd (ReadAvailable target k), tr1)
    end.
Proof.
  intros Hlt Herr Hsync k err1 tr1. subst err1 tr1.
  simpl. apply Z.ltb_lt in Hlt. rewrite Hlt.
  unfold try_error, try_events, banner.conn_Write, banner.conn_ReadAvailable.
  destruct (0 <? len_bytes probe) eqn:P.
  - rewrite (Hsync eq_refl). fold k.
    rewrite count_snoc. simpl. rewrite Nat.add_0_r. fold k.
    destruct (ReadAvailable target k) as [ret1 readerr1]. simpl.
    rewrite <- app_assoc. simpl.
    destruct (Write target k); [reflexivity|]. simpl.
    destruct (banner.read_failed readerr1) eqn:F.
    + destruct readerr1; [reflexivity | discriminate].
    + reflexivity.
  - rewrite (Herr eq_refl). fold k.
    destruct (ReadAvailable target k) as [ret1 readerr1]. simpl.
    destruct (banner.read_failed readerr1) eqn:F.
    + destruct readerr1; [reflexivity | discriminate].
    + reflexivity.
Qed.

(** The second loop makes [m] tries, of which only the last may have
    succeeded; what it leaves is the answer of the last try. *)
Lemma probe_loop_shape probe fuel : forall try err ret readerr tr err' ret' readerr' tr',
  banner.probe_loop target cfg probe fuel try err ret readerr tr
  = Some (err', ret', readerr', tr') ->
  try < MaxTries cfg ->
  ((0 <? len_bytes probe) = false -> err = None) ->
  ((0 <? len_bytes probe) = true ->
   count is_EvWrite tr = count is_EvReadAvailable tr) ->
  let k := count is_EvReadAvailable tr in
  exists m,
    (1 <= m <= Z.to_nat (MaxTries cfg - try))%nat
    /\ tr' = tr ++ flat_map (try_events target probe) (seq k m)
    /\ (ret', readerr') = ReadAvailable target (k + m - 1)
    /\ err' = (if 0 <? len_bytes probe then Write target (k + m - 1) else None)
    /\ (forall j, (k <= j < k + m - 1)%nat -> try_error target probe j <> None)
    /\ (try_error target probe (k + m - 1) <> None
        -> m = Z.to_nat (MaxTries cfg - try)).
Proof.
  induction fuel as [|fuel IH];
    intros try err ret readerr tr err' ret' readerr' tr' H Hlt Herr Hsync k.
  - simpl in H. apply Z.ltb_lt in Hlt. rewrite Hlt in H. discriminate.
  - rewrite (probe_loop_step probe fuel ret readerr tr Hlt Herr Hsync) in H.
    fold k in H.
    assert (Hone : tr ++ try_events target probe k
                   = tr ++ flat_map (try_events target probe) (seq k 1)).
    { simpl. rewrite app_nil_r. reflexivity. }
    destruct (try_error target probe k) as [e|] eqn:Hte.
    + destruct (Z_lt_le_dec (try + 1) (MaxTries cfg)) as [Hmore | Hlast].
      * apply IH in H; [ | exact Hmore | | ].
        -- cbv zeta in H.
           assert (Hk : count is_EvReadAvailable (tr ++ try_events target probe k)
                        = S k).
           { rewrite count_app. fold k. unfold try_events, count.
             destruct (0 <? len_bytes probe); simpl; lia. }
           rewrite Hk in H.
           destruct H as (m & Hm & -> & Hread & -> & Hfail & Hall).
           exists (S m).
           split; [lia|]. split; [|split; [|split; [|split]]].
           ++ rewrite <- app_assoc. simpl. reflexivity.
           ++ rewrite Hread. f_equal. lia.
           ++ replace (k + S m - 1)%nat with (S k + m - 1)%nat by lia. reflexivity.
           ++ intros j Hj. destruct (Nat.eq_dec j k) as [-> | Hne].
              ** rewrite Hte. discriminate.
              ** apply Hfail. lia.
           ++ replace (k + S m - 1)%nat with (S k + m - 1)%nat by lia.
              intro Hne. rewrite (Hall Hne). lia.
        -- intro P. rewrite P. reflexivity.
        -- intro P. rewrite !count_app. rewrite (Hsync P). fold k.
           unfold try_events, count. rewrite P. simpl. reflexivity.
      * rewrite banner_facts.probe_loop_done in H by lia.
        injection H as <- <- <- <-.
        exists 1%nat. replace (k + 1 - 1)%nat with k by lia.
        split; [lia|]. split; [|split; [|split; [|split]]].
        -- exact Hone.
        -- destruct (ReadAvailable target k); reflexivity.
        -- reflexivity.
        -- intros j Hj. lia.
        -- intros _. lia.
    + injection H as <- <- <- <-.
      exists 1%nat. replace (k + 1 - 1)%nat with k by lia.
      split; [lia|]. split; [|split; [|split; [|split]]].
      * exact Hone.
      * destruct (ReadAvailable target k); reflexivity.
      * reflexivity.
      * intros j Hj. lia.
      * intro Hne. exfalso. apply Hne. exact Hte.
Qed.

End LoopShapes.

(** ** The calls of [banner.Scan] *)

Lemma tls_events_counts (target : ScanTarget) (cfg : Flags) :
  count is_EvOpen (tls_events target cfg) = 0%nat
  /\ count is_EvWrite (tls_events target cfg) = 0%nat
  /\ count is_EvReadAvailable (tls_events target cfg) = 0%nat
  /\ count is_EvClose (tls_events target cfg) = 0%nat.
Proof.
  unfold tls_events.
  destruct (UseTLS cfg); [destruct (GetTLSConnection target)|]; repeat split.
Qed.

Section GrabShape.
Context {GO : GoPackages} {ES : ErrorStatus}.
Variable target : ScanTarget.
Variable scanner : banner.Scanner.
Variable cfg : Flags.
Hypothesis tries : 1 <= MaxTries cfg.

(** Lines 156-191 in closed form. *)
Lemma grab_connected_shape (m1 : nat) :
  match tls_error target cfg with
  | Some e =>
      exists res,
        banner.grab_connected target scanner cfg (open_events target m1)
        = banner.Left (Return (TryGetScanStatus e, res, Some e))
            (open_events target m1 ++ tls_events target cfg ++ [EvClose])
        /\ (res = banner.nil_result
            \/ res = banner.ResultsPtr (tls_Results target cfg))
  | None =>
      exists m2,
        (1 <= m2 <= Z.to_nat (MaxTries cfg))%nat
        /\ (forall j, (j < m2 - 1)%nat -> try_error target (banner.probe scanner) j <> None)
        /\ match try_error target (banner.probe scanner) (m2 - 1) with
           | Some e =>
               m2 = Z.to_nat (MaxTries cfg)
               /\ banner.grab_connected target scanner cfg (open_events target m1)
                  = banner.Left (Return (TryGetScanStatus e, banner.nil_result, Some e))
                      (open_events target m1 ++ tls_events target cfg
                       ++ probe_events target (banner.probe scanner) m2 ++ [EvClose])
           | None =>
               banner.grab_connected target scanner cfg (open_events target m1)
               = banner.Grabbed (fst (ReadAvailable target (m2 - 1)))
                   (tls_Results target cfg)
                   (open_events target m1 ++ tls_events target cfg
                    ++ probe_events target (banner.probe scanner) m2)
           end
  end.
Proof.
  unfold banner.grab_connected.
  set (tls := if UseTLS cfg then _ else _).
  assert (Htls :
            match tls_error target cfg with
            | Some e =>
                exists res,
                  tls = inl (Return (TryGetScanStatus e, res, Some e),
                             open_events target m1 ++ tls_events target cfg)
                  /\ (res = banner.nil_result
                      \/ res = banner.ResultsPtr (tls_Results target cfg))
            | None =>
                tls = inr (tls_Results target cfg,
                           open_events target m1 ++ tls_events target cfg)
            end).
  { subst tls. unfold tls_error, tls_events, tls_Results.
    destruct (UseTLS cfg).
    - destruct (GetTLSConnection target) as [e|]; simpl.
      + exists banner.nil_result. split; [reflexivity | left; reflexivity].
      + destruct (Handshake target) as [e|]; simpl.
        * eexists. rewrite <- app_assoc. split; [reflexivity | right; reflexivity].
        * rewrite <- app_assoc. reflexivity.
    - simpl. rewrite app_nil_r. reflexivity. }
  destruct (tls_error target cfg) as [e|].
  - destruct Htls as (res & -> & Hres). exists res.
    rewrite <- app_assoc. split; [reflexivity | exact Hres].
  - rewrite Htls. clear Htls tls.
    set (tr2 := open_events target m1 ++ tls_events target cfg).
    assert (Hw : count is_EvWrite tr2 = 0%nat /\ count is_EvReadAvailable tr2 = 0%nat).
    { subst tr2. rewrite !count_app. unfold open_events.
      destruct (count_map_EvOpen target (seq 0 m1)) as (_ & -> & -> & _).
      destruct (tls_events_counts target cfg) as (_ & -> & -> & _).
      split; reflexivity. }
    destruct Hw as [Hw Hr].
    destruct (@banner_facts.probe_loop_ends target cfg (banner.probe scanner) (Z.to_nat (MaxTries cfg))
                0 None [] None tr2) as [[[[err ret] readerr] tr3] Hloop]; [lia|].
    rewrite Hloop.
    apply probe_loop_shape in Hloop; [ | lia | reflexivity | intros _; congruence ].
    cbv zeta in Hloop. rewrite Hr, Z.sub_0_r in Hloop.
    destruct Hloop as (m2 & Hm2 & -> & Hread & -> & Hfail & Hall).
    simpl in Hread, Hall, Hfail.
    exists m2. split; [exact Hm2|]. split; [intros j Hj; apply Hfail; lia|].
    fold (probe_events target (banner.probe scanner) m2).
    unfold try_error in *.
    destruct (ReadAvailable target (m2 - 1)) as [ret1 readerr1] eqn:Hra.
    injection Hread as -> ->. simpl in *.
    subst tr2. rewrite <- !app_assoc.
    destruct (if 0 <? len_bytes (banner.probe scanner) then Write target (m2 - 1) else None) as [e|].
    + simpl in *. split; [apply Hall; discriminate | reflexivity].
    + simpl in *. destruct readerr1 as [e|]; simpl in *.
      * destruct (is_EOF e); simpl in *.
        -- reflexivity.
        -- split; [apply Hall; discriminate | reflexivity].
      * reflexivity.
Qed.

(** Lines 137-191 in closed form: [m1] calls of [Open], of which only the
    last may have succeeded; then the TLS set-up; then [m2] tries of the
    probe/read loop, of which only the last may have succeeded. *)
Lemma grab_shape :
  exists m1,
    (1 <= m1 <= Z.to_nat (MaxTries cfg))%nat
    /\ (forall i, (i < m1 - 1)%nat -> Open target i <> None)
    /\ match Open target (m1 - 1) with
       | Some e =>
           m1 = Z.to_nat (MaxTries cfg)
           /\ banner.grab target scanner cfg
              = banner.Left (Return (TryGetScanStatus e, banner.nil_result, Some e))
                  (open_events target m1)
       | None =>
           banner.grab target scanner cfg
           = banner.grab_connected target scanner cfg (open_events target m1)
       end.
Proof.
  unfold banner.grab.
  destruct (@banner_facts.open_loop_ends target cfg (Z.to_nat (MaxTries cfg))
              0 None None []) as [[[c err] tr] Hloop]; [lia|].
  rewrite Hloop.
  apply open_loop_shape in Hloop; [|lia].
  cbv zeta in Hloop. rewrite Z.sub_0_r in Hloop.
  change (count is_EvOpen []) with 0%nat in Hloop. simpl in Hloop.
  destruct Hloop as (m1 & Hm1 & -> & -> & -> & Hfail & Hall).
  exists m1. split; [exact Hm1|]. split; [intros i Hi; apply Hfail; lia|].
  fold (open_events target m1).
  destruct (Open target (m1 - 1)) as [e|].
  - split; [apply Hall; discriminate | reflexivity].
  - reflexivity.
Qed.

End GrabShape.

(** The number of calls made by a loop that stops at the first success is
    fixed by the answers. *)
Lemma first_success_calls (f : nat -> option error) (n m k : nat) :
  (1 <= m <= n)%nat ->
  (forall i, (i < m - 1)%nat -> f i <> None) ->
  (f (m - 1)%nat <> None -> m = n) ->
  (forall i, (i < k)%nat -> f i <> None) ->
  f k = None ->
  (k < n)%nat ->
  m = S k.
Proof.
  intros Hm Hbefore Hlast Hk Hok Hlt.
  destruct (Nat.lt_trichotomy (m - 1) k) as [H | [H | H]].
  - specialize (Hlast (Hk _ H)). lia.
  - lia.
  - exfalso. apply (Hbefore k H). exact Hok.
Qed.

Lemma all_fail_calls (f : nat -> option error) (n m : nat) :
  (1 <= m <= n)%nat ->
  (f (m - 1)%nat <> None -> m = n) ->
  (forall i, f i <> None) ->
  m = n.
Proof. intros Hm Hlast Hall. apply Hlast, Hall. Qed.

Section ScanPaths.
Context {GO : GoPackages} {ES : ErrorStatus}.
Variable target : ScanTarget.
Variable scanner : banner.Scanner.
Variable cfg : Flags.
Hypothesis configured : banner.config scanner = Some cfg.
Hypothesis tries : 1 <= MaxTries cfg.

(** [grab] once the first successful [Open] is known. *)
Lemma grab_opened (k1 : nat) :
  (forall i, (i < k1)%nat -> Open target i <> None) ->
  Open target k1 = None ->
  Z.of_nat k1 < MaxTries cfg ->
  banner.grab target scanner cfg
  = banner.grab_connected target scanner cfg (open_events target (S k1)).
Proof.
  intros Hfail Hok Hlt.
  destruct (@grab_shape GO ES target scanner cfg tries) as (m1 & Hm1 & Hbefore & Hlast).
  assert (Hm : m1 = S k1).
  { apply (first_success_calls (Open target) (n := Z.to_nat (MaxTries cfg)));
      try assumption; [|lia].
    intro Hne. destruct (Open target (m1 - 1)); [apply Hlast | contradiction]. }
  subst m1. replace (S k1 - 1)%nat with k1 in Hlast by lia.
  rewrite Hok in Hlast. exact Hlast.
Qed.

End ScanPaths.

(** ** The paths of [banner.Scan] *)

(** X1. [Scan] stops retrying at the first success of each phase: when the
    call number k1 of [Open] is the first to succeed, the TLS set-up (if
    any) succeeds and the try number k2 of the probe/read loop is the first
    to succeed, [Scan] makes k1 + 1 calls of [Open] and k2 + 1 tries, whatever
    is left of MaxTries, closes the connection, and classifies the bytes
    of the last read alone: what earlier tries read is dropped. *)
Theorem X1_scan_stops_at_first_success {GO : GoPackages} {ES : ErrorStatus}
    (target : ScanTarget) (scanner : banner.Scanner) (cfg : Flags) (k1 k2 : nat) :
  banner.config scanner = Some cfg ->
  Z.of_nat k1 < MaxTries cfg ->
  Z.of_nat k2 < MaxTries cfg ->
  (forall i, (i < k1)%nat -> Open target i <> None) ->
  Open target k1 = None ->
  tls_error target cfg = None ->
  (forall j, (j < k2)%nat -> try_error target (banner.probe scanner) j <> None) ->
  try_error target (banner.probe scanner) k2 = None ->
  banner.Scan target scanner
  = (banner.classify scanner cfg (fst (ReadAvailable target k2))
       (tls_Results target cfg),
     open_events target (S k1) ++ tls_events target cfg
     ++ probe_events target (banner.probe scanner) (S k2) ++ [EvClose]).
Proof.
  intros Hcfg Hk1 Hk2 Hfail1 Hok1 Htls Hfail2 Hok2.
  assert (tries : 1 <= MaxTries cfg) by lia.
  rewrite (@Scan_unfold _ _ target _ _ Hcfg).
  rewrite (@grab_opened GO ES target scanner cfg tries k1 Hfail1 Hok1 Hk1).
  pose proof (@grab_connected_shape GO ES target scanner cfg tries (S k1)) as Hshape.
  rewrite Htls in Hshape.
  destruct Hshape as (m2 & Hm2 & Hbefore & Hlast).
  assert (Hm : m2 = S k2).
  { apply (first_success_calls (try_error target (banner.probe scanner))
             (n := Z.to_nat (MaxTries cfg))); try assumption; [|lia].
    intro Hne.
    destruct (try_error target (banner.probe scanner) (m2 - 1));
      [apply Hlast | contradiction]. }
  subst m2. replace (S k2 - 1)%nat with k2 in Hlast by lia.
  rewrite Hok2 in Hlast. rewrite Hlast.
  rewrite <- !app_assoc. reflexivity.
Qed.

Lemma X1_scan_stops_at_first_success_witness :
  banner.Scan (GO := go_subset) (ES := spec_ErrorStatus)
    BannerFixtures.flaky_server
    (BannerFixtures.scanner_of (BannerFixtures.ssh_flags 5))
  = (Return (SCAN_SUCCESS,
             banner.ResultsPtrPtr
               (banner.store_banner (GO := go_subset) (BannerFixtures.ssh_flags 5)
                  BannerFixtures.ssh_banner banner.empty_Results),
             None),
     [EvOpen (Some Fixtures.timeout_error); EvOpen None;
      EvWrite [x0a%byte] None;
      EvReadAvailable BannerFixtures.ssh_banner (Some io_EOF); EvClose]).
Proof.
  rewrite (@X1_scan_stops_at_first_success go_subset spec_ErrorStatus
             BannerFixtures.flaky_server
             (BannerFixtures.scanner_of (BannerFixtures.ssh_flags 5))
             (BannerFixtures.ssh_flags 5) 1 0 eq_refl).
  - vm_compute. reflexivity.
  - simpl. lia.
  - simpl. lia.
  - intros i Hi. assert (i = 0%nat) as -> by lia. discriminate.
  - reflexivity.
  - reflexivity.
  - intros j Hj. lia.
  - reflexivity.
Defined.

(** X2. When every try of the probe/read loop fails (its [Write] fails, or
    its read fails with an error other than end of stream), [Scan] makes
    exactly MaxTries tries, however many calls of [Open] it took to
    connect, closes the connection and returns the error of the last try
    (that of the [Write] if it failed, else that of the read) with the
    status derived from it and no result. *)
Theorem X2_probe_tries_exhausted {GO : GoPackages} {ES : ErrorStatus}
    (target : ScanTarget) (scanner : banner.Scanner) (cfg : Flags) (k1 : nat) :
  banner.config scanner = Some cfg ->
  Z.of_nat k1 < MaxTries cfg ->
  (forall i, (i < k1)%nat -> Open target i <> None) ->
  Open target k1 = None ->
  tls_error target cfg = None ->
  (forall j, try_error target (banner.probe scanner) j <> None) ->
  let N := Z.to_nat (MaxTries cfg) in
  exists e,
    try_error target (banner.probe scanner) (N - 1) = Some e
    /\ banner.Scan target scanner
       = (Return (TryGetScanStatus e, banner.nil_result, Some e),
          open_events target (S k1) ++ tls_events target cfg
          ++ probe_events target (banner.probe scanner) N ++ [EvClose]).
Proof.
  intros Hcfg Hk1 Hfail1 Hok1 Htls Hfail2 N.
  assert (tries : 1 <= MaxTries cfg) by lia.
  rewrite (@Scan_unfold _ _ target _ _ Hcfg).
  rewrite (@grab_opened GO ES target scanner cfg tries k1 Hfail1 Hok1 Hk1).
  pose proof (@grab_connected_shape GO ES target scanner cfg tries (S k1)) as Hshape.
  rewrite Htls in Hshape.
  destruct Hshape as (m2 & Hm2 & Hbefore & Hlast).
  specialize (Hfail2 (m2 - 1)%nat).
  destruct (try_error target (banner.probe scanner) (m2 - 1)) as [e|] eqn:He;
    [|contradiction].
  destruct Hlast as [-> Hgrab]. fold N in He, Hgrab.
  exists e. split; [exact He|]. rewrite Hgrab. reflexivity.
Qed.

Lemma X2_probe_tries_exhausted_witness :
  exists e,
    try_error MoreFixtures.mute_server [x0a%byte] 2 = Some e
    /\ banner.Scan (GO := go_subset) (ES := spec_ErrorStatus)
         MoreFixtures.mute_server
         (BannerFixtures.scanner_of (BannerFixtures.ssh_flags 3))
       = (Return (TryGetScanStatus (ErrorStatus := spec_ErrorStatus) e,
                  banner.nil_result, Some e),
          open_events MoreFixtures.mute_server 1
          ++ tls_events MoreFixtures.mute_server (BannerFixtures.ssh_flags 3)
          ++ probe_events MoreFixtures.mute_server [x0a%byte] 3 ++ [EvClose]).
Proof.
  refine (@X2_probe_tries_exhausted go_subset spec_ErrorStatus
            MoreFixtures.mute_server
            (BannerFixtures.scanner_of (BannerFixtures.ssh_flags 3))
            (BannerFixtures.ssh_flags 3) 0 eq_refl _ _ eq_refl eq_refl _).
  - simpl. lia.
  - intros i Hi. lia.
  - intros j. discriminate.
Defined.

Example mute_server_scan :
  banner.Scan (GO := go_subset) (ES := spec_ErrorStatus) MoreFixtures.mute_server
    (BannerFixtures.scanner_of (BannerFixtures.ssh_flags 2))
  = (Return (SCAN_IO_TIMEOUT, banner.nil_result, Some Fixtures.timeout_error),
     [EvOpen None;
      EvWrite [x0a%byte] None; EvReadAvailable [] (Some Fixtures.timeout_error);
      EvWrite [x0a%byte] None; EvReadAvailable [] (Some Fixtures.timeout_error);
      EvClose]).
Proof. vm_compute. reflexivity. Qed.

Example deaf_server_scan :
  banner.Scan (GO := go_subset) (ES := spec_ErrorStatus) MoreFixtures.deaf_server
    (BannerFixtures.scanner_of (BannerFixtures.ssh_flags 2))
  = (Return (SCAN_IO_ERROR, banner.nil_result, Some MoreFixtures.broken_pipe),
     [EvOpen None;
      EvWrite [x0a%byte] (Some MoreFixtures.broken_pipe); EvReadAvailable [] None;
      EvWrite [x0a%byte] (Some MoreFixtures.broken_pipe); EvReadAvailable [] None;
      EvClose]).
Proof. vm_compute. reflexivity. Qed.

(** X3. When the connection is opened and the TLS set-up fails, [Scan]
    sends no probe and reads nothing, closes the connection and returns
    the error with the status derived from it: with no result if wrapping
    the connection failed, and with a result that holds the TLS log and
    nothing else if the handshake failed. *)
Theorem X3_tls_setup_failure {GO : GoPackages} {ES : ErrorStatus}
    (target : ScanTarget) (scanner : banner.Scanner) (cfg : Flags)
    (k1 : nat) (e : error) :
  banner.config scanner = Some cfg ->
  Z.of_nat k1 < MaxTries cfg ->
  (forall i, (i < k1)%nat -> Open target i <> None) ->
  Open target k1 = None ->
  UseTLS cfg = true ->
  (GetTLSConnection target = Some e ->
   banner.Scan target scanner
   = (Return (TryGetScanStatus e, banner.nil_result, Some e),
      open_events target (S k1) ++ [EvGetTLSConnection (Some e); EvClose]))
  /\ (GetTLSConnection target = None ->
      Handshake target = Some e ->
      banner.Scan target scanner
      = (Return (TryGetScanStatus e,
                 banner.ResultsPtr
                   {| banner.Banner := EmptyString; banner.Length := 0;
                      banner.BannerBase64 := EmptyString;
                      banner.TLSLog := GetTLSConnection_log target |},
                 Some e),
         open_events target (S k1)
         ++ [EvGetTLSConnection None; EvHandshake (Some e); EvClose])).
Proof.
  intros Hcfg Hk1 Hfail1 Hok1 Htls.
  assert (tries : 1 <= MaxTries cfg) by lia.
  rewrite (@Scan_unfold _ _ target _ _ Hcfg).
  rewrite (@grab_opened GO ES target scanner cfg tries k1 Hfail1 Hok1 Hk1).
  unfold banner.grab_connected. rewrite Htls. split.
  - intros ->. rewrite <- app_assoc. reflexivity.
  - intros -> ->. rewrite <- !app_assoc. reflexivity.
Qed.

Lemma X3_tls_setup_failure_witness :
  banner.Scan (GO := go_subset) (ES := spec_ErrorStatus)
    MoreFixtures.tls_failing_server
    (BannerFixtures.scanner_of (MoreFixtures.tls_ssh_flags 2))
  = (Return (SCAN_UNKNOWN_ERROR,
             banner.ResultsPtr
               {| banner.Banner := EmptyString; banner.Length := 0;
                  banner.BannerBase64 := EmptyString;
                  banner.TLSLog := Some Fixtures.full_log |},
             Some Fixtures.handshake_error),
     [EvOpen (Some Fixtures.timeout_error); EvOpen None;
      EvGetTLSConnection None; EvHandshake (Some Fixtures.handshake_error);
      EvClose]).
Proof.
  refine (proj2 (@X3_tls_setup_failure go_subset spec_ErrorStatus
                   MoreFixtures.tls_failing_server
                   (BannerFixtures.scanner_of (MoreFixtures.tls_ssh_flags 2))
                   (MoreFixtures.tls_ssh_flags 2) 1 Fixtures.handshake_error
                   eq_refl _ _ eq_refl eq_refl) eq_refl eq_refl).
  - simpl. lia.
  - intros i Hi. assert (i = 0%nat) as -> by lia. discriminate.
Defined.

(** ** What every banner scan does on the network *)

Lemma open_events_ok (target : ScanTarget) (m : nat) :
  (1 <= m)%nat ->
  (forall i, (i < m - 1)%nat -> Open target i <> None) ->
  count is_EvOpen_ok (open_events target m)
  = match Open target (m - 1) with None => 1%nat | Some _ => 0%nat end.
Proof.
  intros Hm Hfail. unfold open_events.
  destruct m as [|m]; [lia|]. replace (S m - 1)%nat with m in * by lia.
  rewrite seq_S, map_app, count_app. simpl.
  assert (Hzero : forall n, (n <= m)%nat ->
             count is_EvOpen_ok (map (fun i => EvOpen (Open target i)) (seq 0 n)) = 0%nat).
  { induction n as [|n IH]; intro Hn; [reflexivity|].
    rewrite seq_S, map_app, count_app, IH by lia. simpl.
    unfold count. simpl.
    destruct (Open target n) eqn:Ho; [reflexivity|].
    exfalso. apply (Hfail n); [lia | exact Ho]. }
  rewrite (Hzero m (Nat.le_refl m)). unfold count. simpl.
  destruct (Open target m); reflexivity.
Qed.

(** The trace of any scan: the calls of [Open]; then, if the last of them
    gave a connection, the TLS set-up, the tries and the [Close]. *)
Lemma Scan_trace {GO : GoPackages} {ES : ErrorStatus}
    (target : ScanTarget) (scanner : banner.Scanner) (cfg : Flags) :
  banner.config scanner = Some cfg ->
  1 <= MaxTries cfg ->
  exists m1 m2,
    (1 <= m1 <= Z.to_nat (MaxTries cfg))%nat
    /\ (m2 <= Z.to_nat (MaxTries cfg))%nat
    /\ (forall i, (i < m1 - 1)%nat -> Open target i <> None)
    /\ snd (banner.Scan target scanner)
       = open_events target m1
         ++ match Open target (m1 - 1) with
            | Some _ => []
            | None =>
                (tls_events target cfg
                 ++ probe_events target (banner.probe scanner) m2) ++ [EvClose]
            end.
Proof.
  intros Hcfg tries.
  rewrite (@Scan_unfold _ _ target _ _ Hcfg).
  destruct (@grab_shape GO ES target scanner cfg tries) as (m1 & Hm1 & Hbefore & Hlast).
  destruct (Open target (m1 - 1)) as [e|] eqn:Ho.
  - destruct Hlast as [_ ->]. exists m1, 0%nat.
    split; [lia|]. split; [lia|]. split; [exact Hbefore|].
    rewrite Ho. simpl. rewrite app_nil_r. reflexivity.
  - rewrite Hlast.
    pose proof (@grab_connected_shape GO ES target scanner cfg tries m1) as Hshape.
    destruct (tls_error target cfg) as [e|].
    + destruct Hshape as (res & -> & _). exists m1, 0%nat.
      split; [lia|]. split; [lia|]. split; [exact Hbefore|].
      rewrite Ho. simpl. rewrite ?app_nil_r, <- ?app_assoc. reflexivity.
    + destruct Hshape as (m2 & Hm2 & _ & Hshape).
      exists m1, m2.
      split; [lia|]. split; [lia|]. split; [exact Hbefore|].
      rewrite Ho.
      destruct (try_error target (banner.probe scanner) (m2 - 1)) as [e|].
      * destruct Hshape as [_ ->]. simpl. rewrite <- ?app_assoc. reflexivity.
      * rewrite Hshape. simpl. rewrite <- ?app_assoc. reflexivity.
Qed.

(** X4. A banner scan with MaxTries >= 1 opens at most one connection and
    closes what it opens: if no [Open] succeeded there is no [Close]; if one
    did, it is the last [Open] of the scan, and [Close] is called exactly
    once, after every other call, whichever way [Scan] is left. *)
Theorem X4_scan_closes_what_it_opens {GO : GoPackages} {ES : ErrorStatus}
    (target : ScanTarget) (scanner : banner.Scanner) (cfg : Flags) :
  banner.config scanner = Some cfg ->
  1 <= MaxTries cfg ->
  let tr := snd (banner.Scan target scanner) in
  (count is_EvOpen_ok tr = 0%nat /\ count is_EvClose tr = 0%nat)
  \/ (count is_EvOpen_ok tr = 1%nat
      /\ exists opens calls,
           tr = opens ++ EvOpen None :: calls ++ [EvClose]
           /\ count is_EvOpen_ok opens = 0%nat
           /\ count is_EvOpen calls = 0%nat
           /\ count is_EvClose (opens ++ EvOpen None :: calls) = 0%nat).
Proof.
  intros Hcfg tries tr. subst tr.
  destruct (Scan_trace target scanner Hcfg tries) as (m1 & m2 & Hm1 & Hm2 & Hbefore & ->).
  pose proof (open_events_ok target (proj1 Hm1) Hbefore) as Hok.
  destruct (count_map_EvOpen target (seq 0 m1)) as (_ & _ & _ & Hclose).
  fold (open_events target m1) in Hclose.
  destruct (Open target (m1 - 1)) as [e|] eqn:Ho.
  - left. rewrite app_nil_r. split; assumption.
  - right.
    destruct (tls_events_counts target cfg) as (T1 & _ & _ & T4).
    destruct (try_events_counts target (banner.probe scanner) (seq 0 m2))
      as (_ & _ & P3 & P4).
    fold (probe_events target (banner.probe scanner) m2) in P3, P4.
    assert (Hmid_ok : forall l, count is_EvOpen l = 0%nat -> count is_EvOpen_ok l = 0%nat).
    { unfold count. induction l as [|ev l IH]; [reflexivity|].
      destruct ev as [[e'|]| | | | | |]; simpl; intro H;
        try discriminate; apply IH; exact H. }
    split.
    + rewrite !count_app, Hok.
      rewrite (Hmid_ok (tls_events target cfg) T1).
      rewrite (Hmid_ok (probe_events target (banner.probe scanner) m2) P3).
      reflexivity.
    + destruct m1 as [|m]; [lia|]. replace (S m - 1)%nat with m in * by lia.
      exists (open_events target m),
             (tls_events target cfg ++ probe_events target (banner.probe scanner) m2).
      assert (Hsplit : open_events target (S m)
                       = open_events target m ++ [EvOpen None]).
      { unfold open_events. rewrite seq_S, map_app. simpl. rewrite Ho. reflexivity. }
      split; [|split; [|split]].
      * rewrite Hsplit, <- !app_assoc. reflexivity.
      * rewrite Hsplit, count_app in Hok. unfold count in Hok at 2. simpl in Hok. lia.
      * rewrite count_app, T1, P3. reflexivity.
      * change (open_events target m ++ EvOpen None :: ?x)
          with (open_events target m ++ [EvOpen None] ++ x).
        rewrite app_assoc, <- Hsplit, !count_app, Hclose, T4, P4. reflexivity.
Qed.

Lemma X4_scan_closes_what_it_opens_witness :
  let tr := snd (banner.Scan (GO := go_subset) (ES := spec_ErrorStatus)
                   BannerFixtures.flaky_server
                   (BannerFixtures.scanner_of (BannerFixtures.ssh_flags 2))) in
  (count is_EvOpen_ok tr = 0%nat /\ count is_EvClose tr = 0%nat)
  \/ (count is_EvOpen_ok tr = 1%nat
      /\ exists opens calls,
           tr = opens ++ EvOpen None :: calls ++ [EvClose]
           /\ count is_EvOpen_ok opens = 0%nat
           /\ count is_EvOpen calls = 0%nat
           /\ count is_EvClose (opens ++ EvOpen None :: calls) = 0%nat).
Proof.
  refine (@X4_scan_closes_what_it_opens go_subset spec_ErrorStatus
            BannerFixtures.flaky_server
            (BannerFixtures.scanner_of (BannerFixtures.ssh_flags 2))
            (BannerFixtures.ssh_flags 2) eq_refl _).
  simpl. lia.
Defined.

(** X5. A banner scan with MaxTries >= 1 calls [Open] at least once and at
    most MaxTries times, reads at most MaxTries times, and writes the probe
    once before each read, or never if the probe is empty. *)
Theorem X5_scan_call_bounds {GO : GoPackages} {ES : ErrorStatus}
    (target : ScanTarget) (scanner : banner.Scanner) (cfg : Flags) :
  banner.config scanner = Some cfg ->
  1 <= MaxTries cfg ->
  let tr := snd (banner.Scan target scanner) in
  1 <= Z.of_nat (count is_EvOpen tr) <= MaxTries cfg
  /\ Z.of_nat (count is_EvReadAvailable tr) <= MaxTries cfg
  /\ count is_EvWrite tr
     = (if 0 <? len_bytes (banner.probe scanner)
        then count is_EvReadAvailable tr else 0%nat).
Proof.
  intros Hcfg tries tr. subst tr.
  destruct (Scan_trace target scanner Hcfg tries) as (m1 & m2 & Hm1 & Hm2 & _ & ->).
  destruct (count_map_EvOpen target (seq 0 m1)) as (O1 & O2 & O3 & _).
  fold (open_events target m1) in O1, O2, O3. rewrite length_seq in O1.
  destruct (tls_events_counts target cfg) as (T1 & T2 & T3 & _).
  destruct (try_events_counts target (banner.probe scanner) (seq 0 m2))
    as (P1 & P2 & P3 & _).
  fold (probe_events target (banner.probe scanner) m2) in P1, P2, P3.
  rewrite length_seq in P1, P2.
  destruct (Open target (m1 - 1)).
  - rewrite app_nil_r, O1, O2, O3.
    destruct (0 <? len_bytes (banner.probe scanner)); repeat split; lia.
  - rewrite !count_app, O1, O2, O3, T1, T2, T3, P1, P2, P3.
    unfold count. simpl.
    destruct (0 <? len_bytes (banner.probe scanner)); repeat split; lia.
Qed.

Lemma X5_scan_call_bounds_witness :
  let tr := snd (banner.Scan (GO := go_subset) (ES := spec_ErrorStatus)
                   MoreFixtures.mute_server
                   (BannerFixtures.scanner_of (BannerFixtures.ssh_flags 3))) in
  1 <= Z.of_nat (count is_EvOpen tr) <= 3
  /\ Z.of_nat (count is_EvReadAvailable tr) <= 3
  /\ count is_EvWrite tr = count is_EvReadAvailable tr.
Proof.
  refine (@X5_scan_call_bounds go_subset spec_ErrorStatus
            MoreFixtures.mute_server
            (BannerFixtures.scanner_of (BannerFixtures.ssh_flags 3))
            (BannerFixtures.ssh_flags 3) eq_refl _).
  simpl. lia.
Defined.

(** ** What a banner scan depends on *)

Section GrabExt.
Context {GO : GoPackages} {ES : ErrorStatus}.
Variable target : ScanTarget.

Lemma open_loop_ext (cfg cfg' : Flags) fuel :
  MaxTries cfg = MaxTries cfg' ->
  forall try c err tr,
    banner.open_loop target cfg fuel try c err tr
    = banner.open_loop target cfg' fuel try c err tr.
Proof.
  intro H. induction fuel as [|fuel IH]; intros try c err tr; simpl; rewrite H.
  - reflexivity.
  - destruct (try <? MaxTries cfg'); [|reflexivity].
    destruct (Open target (count is_EvOpen tr)); [apply IH | reflexivity].
Qed.

Lemma probe_loop_ext (cfg cfg' : Flags) probe fuel :
  MaxTries cfg = MaxTries cfg' ->
  forall try err ret readerr tr,
    banner.probe_loop target cfg probe fuel try err ret readerr tr
    = banner.probe_loop target cfg' probe fuel try err ret readerr tr.
Proof.
  intro H. induction fuel as [|fuel IH]; intros try err ret readerr tr;
    simpl; rewrite H.
  - reflexivity.
  - destruct (try <? MaxTries cfg'); [|reflexivity].
    destruct (if 0 <? len_bytes probe then _ else _) as [err1 trw].
    destruct (banner.conn_ReadAvailable target trw) as [[ret1 readerr1] tr1].
    destruct err1; [apply IH|].
    destruct (banner.read_failed readerr1); [apply IH | reflexivity].
Qed.

(** Lines 137-191 read the flags for MaxTries and UseTLS only, and the
    scanner for its probe only. *)
Lemma grab_ext (scanner scanner' : banner.Scanner) (cfg cfg' : Flags) :
  MaxTries cfg = MaxTries cfg' ->
  UseTLS cfg = UseTLS cfg' ->
  banner.probe scanner = banner.probe scanner' ->
  banner.grab target scanner cfg = banner.grab target scanner' cfg'.
Proof.
  intros Hm Ht Hp. unfold banner.grab, banner.grab_connected.
  rewrite (open_loop_ext cfg cfg' _ Hm), Hm, Ht, Hp.
  destruct (banner.open_loop target cfg' _ _ _ _ _) as [[[c err] tr]|]; [|reflexivity].
  destruct err; [reflexivity|]. destruct c; [|reflexivity].
  destruct (if UseTLS cfg' then _ else _) as [[out tr'] | [result tr']]; [reflexivity|].
  rewrite (probe_loop_ext cfg cfg' _ _ Hm). reflexivity.
Qed.

(** What [Scan] returns before line 192 carries no banner. *)
Lemma grab_Left_blank (scanner : banner.Scanner) (cfg : Flags) out tr :
  banner.grab target scanner cfg = banner.Left out tr ->
  blank_Banner out = out.
Proof.
  unfold banner.grab, banner.grab_connected.
  destruct (banner.open_loop target cfg _ _ _ _ _) as [[[c err] tr0]|];
    [|intro H; injection H as <- _; reflexivity].
  destruct err; [intro H; injection H as <- _; reflexivity|].
  destruct c; [|intro H; injection H as <- _; reflexivity].
  destruct (UseTLS cfg).
  - destruct (GetTLSConnection target);
      [intro H; injection H as <- _; reflexivity|].
    destruct (Handshake target);
      [intro H; injection H as <- _; reflexivity|].
    destruct (banner.probe_loop target cfg _ _ _ _ _ _ _) as [[[[err ret] readerr] tr3]|];
      [|intro H; injection H as <- _; reflexivity].
    destruct err; [intro H; injection H as <- _; reflexivity|].
    destruct readerr as [e|]; [|discriminate].
    destruct (negb (is_EOF e)); [intro H; injection H as <- _; reflexivity | discriminate].
  - destruct (banner.probe_loop target cfg _ _ _ _ _ _ _) as [[[[err ret] readerr] tr3]|];
      [|intro H; injection H as <- _; reflexivity].
    destruct err; [intro H; injection H as <- _; reflexivity|].
    destruct readerr as [e|]; [|discriminate].
    destruct (negb (is_EOF e)); [intro H; injection H as <- _; reflexivity | discriminate].
Qed.

End GrabExt.



(** X7. OnlyBASE64 changes nothing of a scan but the Banner field of its
    result, which it leaves empty: the calls on the network, the status,
    the error and the other fields of the result are those of the same
    scan without it. *)
Theorem X7_only_base64_blanks_banner {GO : GoPackages} {ES : ErrorStatus}
    (target : ScanTarget) (cfg : Flags) (regex : option Regexp) (probe : list byte) :
  let scan b :=
    banner.Scan target
      {| banner.config := Some (with_OnlyBASE64 b cfg);
         banner.regex := regex; banner.probe := probe |} in
  scan true = (blank_Banner (fst (scan false)), snd (scan false)).
Proof.
  intro scan. subst scan. cbv beta.
  set (sT := {| banner.config := Some (with_OnlyBASE64 true cfg);
                banner.regex := regex; banner.probe := probe |}).
  set (sF := {| banner.config := Some (with_OnlyBASE64 false cfg);
                banner.regex := regex; banner.probe := probe |}).
  rewrite (@Scan_unfold _ _ target sT (with_OnlyBASE64 true cfg) eq_refl).
  rewrite (@Scan_unfold _ _ target sF (with_OnlyBASE64 false cfg) eq_refl).
  rewrite (grab_ext target sT sF
             (with_OnlyBASE64 true cfg) (with_OnlyBASE64 false cfg)
             eq_refl eq_refl eq_refl).
  destruct (banner.grab target _ (with_OnlyBASE64 false cfg))
    as [out tr | ret result tr] eqn:Hgrab.
  - simpl. rewrite (grab_Left_blank target _ _ Hgrab). reflexivity.
  - simpl. f_equal.
    unfold banner.classify, banner.store_banner, banner.check_bytes_of. simpl.
    destruct (_ && _).
    + destruct regex as [re|]; [|reflexivity].
      destruct (regexp_Match re ret); reflexivity.
    + destruct (if 0 <? len_string (SingleContains cfg) then _ else _)
        as [check_bytes err_check_bytes].
      destruct (_ && _); [|reflexivity].
      destruct (Contains ret check_bytes); reflexivity.
Qed.

(** ** [Init] and the accessors *)

(** X8. [Init] of the banner scanner never returns an error: it returns nil
    with the flags and the compiled pattern stored, or it panics; and it
    panics exactly when the flags are those of another module, when the
    pattern does not compile, or when the probe that is used does not
    decode. *)
Theorem X8_banner_Init_returns_nil_or_panics {GO : GoPackages}
    (s : banner.Scanner) (flags : ScanFlags) :
  (exists sc cfg re,
      banner.Init s flags = Return (sc, None)
      /\ flags = FlagsPtr cfg
      /\ banner.config sc = Some cfg
      /\ regexp_MustCompile (Pattern cfg) = Some re
      /\ banner.regex sc = Some re
      /\ (Probe cfg <> EmptyString ->
          snd (strconv_Unquote (banner.Sprintf_quoted (Probe cfg))) = None)
      /\ (Probe cfg = EmptyString -> ProbeBASE64 cfg <> EmptyString ->
          snd (base64_DecodeString (ProbeBASE64 cfg)) = None))
  \/ (exists msg,
         banner.Init s flags = Panic msg
         /\ ((forall cfg, flags <> FlagsPtr cfg)
             \/ exists cfg,
                  flags = FlagsPtr cfg
                  /\ (regexp_MustCompile (Pattern cfg) = None
                      \/ (Probe cfg <> EmptyString
                          /\ snd (strconv_Unquote (banner.Sprintf_quoted (Probe cfg)))
                             <> None)
                      \/ (Probe cfg = EmptyString
                          /\ ProbeBASE64 cfg <> EmptyString
                          /\ snd (base64_DecodeString (ProbeBASE64 cfg)) <> None)))).
Proof.
  unfold banner.Init. destruct flags as [cfg | f | m].
  2: { right. eexists. split; [reflexivity|]. left. intros cfg; discriminate. }
  2: { right. eexists. split; [reflexivity|]. left. intros cfg; discriminate. }
  destruct (regexp_MustCompile (Pattern cfg)) as [re|] eqn:Hre.
  2: { right. eexists. split; [reflexivity|]. right. exists cfg. auto. }
  rewrite !len_string_pos.
  destruct (String.eqb (Probe cfg) EmptyString) eqn:Hp; simpl.
  - apply String.eqb_eq in Hp.
    destruct (String.eqb (ProbeBASE64 cfg) EmptyString) eqn:Hb; simpl.
    + apply String.eqb_eq in Hb. left. eexists _, cfg, re.
      split; [reflexivity|]. repeat split; try assumption; try reflexivity;
        intros; contradiction.
    + apply String.eqb_neq in Hb.
      destruct (base64_DecodeString (ProbeBASE64 cfg)) as [probe [e|]] eqn:Hd.
      * right. eexists. split; [reflexivity|]. right. exists cfg.
        split; [reflexivity|]. right; right.
        rewrite Hd. repeat split; try assumption. discriminate.
      * left. eexists _, cfg, re. split; [reflexivity|].
        repeat split; try assumption; try reflexivity.
        -- intros; contradiction.
        -- intros. rewrite Hd. reflexivity.
  - apply String.eqb_neq in Hp.
    destruct (strconv_Unquote (banner.Sprintf_quoted (Probe cfg))) as [probe [e|]] eqn:Hu.
    + right. eexists. split; [reflexivity|]. right. exists cfg.
      split; [reflexivity|]. right; left.
      split; [assumption | rewrite Hu; discriminate].
    + left. eexists _, cfg, re. split; [reflexivity|].
      repeat split; try assumption; try reflexivity.
      * intros. rewrite Hu. reflexivity.
      * intros; contradiction.
Qed.

(** X9. The probe that [Init] stores: the unquoted literal probe when it is
    set, whatever the base64 probe is (it is not even decoded); else the
    decoding of the base64 probe when that is set; else the probe that the
    scanner held before the call, which [Init] does not reset. *)
Theorem X9_Init_probe_choice {GO : GoPackages}
    (s sc : banner.Scanner) (cfg : Flags) (err : option error) :
  banner.Init s (FlagsPtr cfg) = Return (sc, err) ->
  (Probe cfg <> EmptyString ->
   banner.probe sc
   = list_byte_of_string (fst (strconv_Unquote (banner.Sprintf_quoted (Probe cfg)))))
  /\ (Probe cfg = EmptyString -> ProbeBASE64 cfg <> EmptyString ->
      banner.probe sc = fst (base64_DecodeString (ProbeBASE64 cfg)))
  /\ (Probe cfg = EmptyString -> ProbeBASE64 cfg = EmptyString ->
      banner.probe sc = banner.probe s).
Proof.
  unfold banner.Init.
  destruct (regexp_MustCompile (Pattern cfg)) as [re|]; [|discriminate].
  rewrite !len_string_pos.
  destruct (String.eqb (Probe cfg) EmptyString) eqn:Hp; simpl.
  - apply String.eqb_eq in Hp.
    destruct (String.eqb (ProbeBASE64 cfg) EmptyString) eqn:Hb; simpl.
    + apply String.eqb_eq in Hb. intro H. injection H as <- _.
      repeat split; intros; try contradiction; try reflexivity.
    + apply String.eqb_neq in Hb.
      destruct (base64_DecodeString (ProbeBASE64 cfg)) as [probe [e|]];
        [discriminate|].
      intro H. injection H as <- _.
      repeat split; intros; try contradiction; try reflexivity.
  - apply String.eqb_neq in Hp.
    destruct (strconv_Unquote (banner.Sprintf_quoted (Probe cfg))) as [probe [e|]];
      [discriminate|].
    intro H. injection H as <- _.
    repeat split; intros; try contradiction; try reflexivity.
Qed.

Lemma X9_Init_probe_choice_witness :
  ProbeBASE64 MoreFixtures.two_probes_flags <> EmptyString
  /\ snd (GoSubset.DecodeString (ProbeBASE64 MoreFixtures.two_probes_flags)) <> None
  /\ banner.probe (BannerFixtures.scanner_of MoreFixtures.two_probes_flags)
     = [x0a%byte].
Proof.
  split; [discriminate|]. split; [discriminate|].
  refine (proj1 (@X9_Init_probe_choice go_subset banner.NewScanner
                   (BannerFixtures.scanner_of MoreFixtures.two_probes_flags)
                   MoreFixtures.two_probes_flags None eq_refl) _).
  discriminate.
Defined.

(** X10. After an [Init] that returned, [GetName] and [GetTrigger] return
    the Name and the Trigger of the flags handed to [Init]; on a scanner
    that was never initialised they panic, and so they do on a new TLS
    scanner whose [Init] returned the mismatched-flags error. *)
Theorem X10_accessors_after_Init {GO : GoPackages} :
  (forall (s sc : banner.Scanner) flags err,
      banner.Init s flags = Return (sc, err) ->
      exists cfg,
        flags = FlagsPtr cfg
        /\ banner_methods.GetName sc = Return (Name (Flags_BaseFlags cfg))
        /\ banner_methods.GetTrigger sc = Return (Trigger (Flags_BaseFlags cfg)))
  /\ (forall (s s' : tls.TLSScanner) flags,
         tls.Init s flags = (s', None) ->
         exists cfg,
           flags = TLSFlagsPtr cfg
           /\ tls_methods.GetName s' = Return (Name (TLSFlags_BaseFlags cfg))
           /\ tls_methods.GetTrigger s' = Return (Trigger (TLSFlags_BaseFlags cfg)))
  /\ (forall (s' : tls.TLSScanner) flags e,
         tls.Init tls.NewScanner flags = (s', Some e) ->
         tls_methods.GetName s' = Panic nil_dereference
         /\ tls_methods.GetTrigger s' = Panic nil_dereference)
  /\ banner_methods.GetName banner.NewScanner = Panic nil_dereference
  /\ banner_methods.GetTrigger banner.NewScanner = Panic nil_dereference.
Proof.
  split; [|split; [|split; [|split]]].
  - intros s sc flags err H.
    apply Init_Return in H as (cfg & re & -> & Hcfg & _).
    exists cfg. unfold banner_methods.GetName, banner_methods.GetTrigger.
    rewrite Hcfg. repeat split.
  - intros s s' [cfg | cfg | m] H; simpl in H; try discriminate.
    injection H as <-. exists cfg. repeat split.
  - intros s' [cfg | cfg | m] e H; simpl in H; try discriminate;
      injection H as <- _; split; reflexivity.
  - reflexivity.
  - reflexivity.
Qed.

Lemma X10_accessors_after_Init_witness :
  banner_methods.GetName (BannerFixtures.scanner_of (BannerFixtures.ssh_flags 1))
  = Return "scan".
Proof.
  destruct (proj1 (@X10_accessors_after_Init go_subset) banner.NewScanner
              (BannerFixtures.scanner_of (BannerFixtures.ssh_flags 1))
              (FlagsPtr (BannerFixtures.ssh_flags 1)) None eq_refl)
    as (cfg & Hflags & Hname & _).
  injection Hflags as <-. exact Hname.
Defined.

(** ** The TLS scanner: where it panics, and where it reports no match *)

Lemma first_configured_filter_None (cfg : TLSFlags) :
  tls.first_configured_filter cfg = None <->
  FilterFingerprintMD5 cfg = EmptyString
  /\ FilterFingerprintSHA1 cfg = EmptyString
  /\ FilterFingerprintSHA256 cfg = EmptyString
  /\ FilterFingerprintSerial cfg = EmptyString.
Proof.
  unfold tls.first_configured_filter.
  destruct (String.eqb_spec (FilterFingerprintMD5 cfg) EmptyString) as [-> | H1];
    simpl; [|split; [discriminate | intros (H & _); contradiction]].
  destruct (String.eqb_spec (FilterFingerprintSHA1 cfg) EmptyString) as [-> | H2];
    simpl; [|split; [discriminate | intros (_ & H & _); contradiction]].
  destruct (String.eqb_spec (FilterFingerprintSHA256 cfg) EmptyString) as [-> | H3];
    simpl; [|split; [discriminate | intros (_ & _ & H & _); contradiction]].
  destruct (String.eqb_spec (FilterFingerprintSerial cfg) EmptyString) as [-> | H4];
    simpl; [|split; [discriminate | intros (_ & _ & _ & H); contradiction]].
  split; auto.
Qed.



Example tls_nil_log_with_filter_panics :
  fst (tls.Scan (ES := spec_ErrorStatus)
         (Fixtures.tls_scanner (Fixtures.tls_flags "" "" "" "5"))
         (Fixtures.tls_target (Some {| GetLog := None |}, None)))
  = Panic nil_dereference.
Proof. reflexivity. Qed.

(** X12. The TLS scanner returns SUCCESS_NOTCONTAIN in one situation only,
    and then with neither result nor error: the handshake succeeded, a
    filter is configured, and the first configured filter matches neither
    the leaf nor any certificate of the chain. *)
Theorem X12_tls_NOTCONTAIN_iff {ES : ErrorStatus}
    (cfg : TLSFlags) (t : ScanTarget) (res : tls.Result) (err : option error) :
  fst (tls.Scan {| tls.config := Some cfg |} t)
  = Return (SCAN_SUCCESS_NOTCONTAIN, res, err)
  <->
  (res = tls.nil_result /\ err = None
   /\ exists c log matches,
        OpenTLS t = (Some c, None)
        /\ GetLog c = Some log
        /\ tls.first_configured_filter cfg = Some matches
        /\ forall cert, In cert (tls.presented log) -> matches cert = false).
Proof.
  unfold tls.Scan. cbn [tls.config].
  destruct (OpenTLS t) as [conn oerr] eqn:Hopen. cbn [fst snd].
  destruct oerr as [e|].
  - split.
    + intro H. exfalso. simpl in H.
      assert (Hst : TryGetScanStatus e = SCAN_SUCCESS_NOTCONTAIN).
      { destruct conn as [c|]; [|injection H as -> _ _; reflexivity].
        destruct (GetLog c) as [log|]; [|injection H as -> _ _; reflexivity].
        destruct (ServerHello (HandshakeLog log));
          injection H as -> _ _; reflexivity. }
      exact (@TryGetScanStatus_not_NOTCONTAIN ES e Hst).
    + intros (_ & _ & c & log & matches & H & _). discriminate.
  - destruct conn as [c|].
    2: { split; [discriminate | intros (_ & _ & c & log & matches & H & _); discriminate]. }
    rewrite Scan_answer_first_configured.
    destruct (tls.first_configured_filter cfg) as [matches|] eqn:Hf.
    2: { split; [discriminate
                | intros (_ & _ & c' & log & matches & _ & _ & H & _); discriminate]. }
    destruct (GetLog c) as [log|] eqn:Hlog.
    2: { split; [discriminate
                | intros (_ & _ & c' & log & m' & Hc & Hl & _)].
         injection Hc as <-. rewrite Hlog in Hl. discriminate. }
    rewrite filter_case_presented.
    destruct (existsb matches (tls.presented log)) eqn:Hex.
    + split; [discriminate|].
      intros (_ & _ & c' & log' & m' & Hc & Hl & Hm & Hnone).
      injection Hc as <-. rewrite Hlog in Hl. injection Hl as <-.
      injection Hm as <-.
      apply existsb_false_iff in Hnone. rewrite Hnone in Hex. discriminate.
    + split.
      * intro H. injection H as <- <-. split; [reflexivity|]. split; [reflexivity|].
        exists c, log, matches.
        split; [reflexivity|]. split; [exact Hlog|]. split; [reflexivity|].
        apply existsb_false_iff. exact Hex.
      * intros (-> & -> & _). reflexivity.
Qed.

(** ** The fingerprint filters *)

Lemma hex_digits_of_byte (v : byte) :
  is_lower_hex (hex_digit (N.shiftr (Byte.to_N v) 4)) = true
  /\ is_lower_hex (hex_digit (N.land (Byte.to_N v) 15)) = true
  /\ (hex_value (hex_digit (N.shiftr (Byte.to_N v) 4)) * 16
      + hex_value (hex_digit (N.land (Byte.to_N v) 15)))%N = Byte.to_N v.
Proof. destruct v; repeat split; vm_compute; reflexivity. Qed.

Lemma byte_to_N_inj (v w : byte) : Byte.to_N v = Byte.to_N w -> v = w.
Proof.
  intro H. pose proof (Byte.of_to_N v) as Hv. rewrite H, Byte.of_to_N in Hv.
  injection Hv as ->. reflexivity.
Qed.

(** [hex.EncodeToString] writes two lower-case digits per byte. *)
Lemma hex_EncodeToString_form (b : list byte) :
  forallb is_lower_hex (list_ascii_of_string (hex_EncodeToString b)) = true
  /\ String.length (hex_EncodeToString b) = (2 * List.length b)%nat.
Proof.
  induction b as [|v b [IH1 IH2]]; [split; reflexivity|].
  destruct (hex_digits_of_byte v) as (H1 & H2 & _).
  cbn [hex_EncodeToString list_ascii_of_string forallb String.length List.length].
  rewrite H1, H2, IH1, IH2. split; [reflexivity | lia].
Qed.

(** [hex.EncodeToString] is injective. *)
Lemma hex_EncodeToString_inj (b b' : list byte) :
  hex_EncodeToString b = hex_EncodeToString b' -> b = b'.
Proof.
  revert b'. induction b as [|v b IH]; intros [|w b'] H; try discriminate.
  - reflexivity.
  - cbn [hex_EncodeToString] in H.
    destruct (hex_digits_of_byte v) as (_ & _ & Hv).
    destruct (hex_digits_of_byte w) as (_ & _ & Hw).
    set (v1 := hex_digit (N.shiftr (Byte.to_N v) 4)) in *.
    set (v2 := hex_digit (N.land (Byte.to_N v) 15)) in *.
    set (w1 := hex_digit (N.shiftr (Byte.to_N w) 4)) in *.
    set (w2 := hex_digit (N.land (Byte.to_N w) 15)) in *.
    injection H as Hhi Hlo Hrest.
    rewrite Hhi, Hlo, Hw in Hv. symmetry in Hv. apply byte_to_N_inj in Hv. subst w.
    f_equal. apply IH. exact Hrest.
Qed.

(** X13. A fingerprint filter is compared with the lower-case hexadecimal
    form of the digest: a filter that holds any other character (an
    upper-case digit, a colon, a space), or whose length is not twice that
    of the digest, matches no certificate; so an MD5 filter with such a
    character turns every completed handshake into SUCCESS_NOTCONTAIN. *)
Theorem X13_fingerprint_filter_form {ES : ErrorStatus} (f : string) :
  (forall value,
      forallb is_lower_hex (list_ascii_of_string f) = false ->
      tls.md5_matches f value = false
      /\ tls.sha1_matches f value = false
      /\ tls.sha256_matches f value = false)
  /\ (forall value,
         (tls.md5_matches f value = true ->
          String.length f = (2 * List.length (FingerprintMD5 (Parsed value)))%nat)
         /\ (tls.sha1_matches f value = true ->
             String.length f = (2 * List.length (FingerprintSHA1 (Parsed value)))%nat)
         /\ (tls.sha256_matches f value = true ->
             String.length f = (2 * List.length (FingerprintSHA256 (Parsed value)))%nat))
  /\ (forall cfg t c log,
         OpenTLS t = (Some c, None) ->
         GetLog c = Some log ->
         FilterFingerprintMD5 cfg = f ->
         forallb is_lower_hex (list_ascii_of_string f) = false ->
         fst (tls.Scan {| tls.config := Some cfg |} t)
         = Return (SCAN_SUCCESS_NOTCONTAIN, tls.nil_result, None)).
Proof.
  assert (Hform : forall b,
             forallb is_lower_hex (list_ascii_of_string f) = false ->
             String.eqb (hex_EncodeToString b) f = false).
  { intros b Hbad. apply String.eqb_neq. intros <-.
    rewrite (proj1 (hex_EncodeToString_form b)) in Hbad. discriminate. }
  assert (Hlen : forall b,
             String.eqb (hex_EncodeToString b) f = true ->
             String.length f = (2 * List.length b)%nat).
  { intros b H. apply String.eqb_eq in H. subst f.
    apply hex_EncodeToString_form. }
  split; [|split].
  - intros value Hbad.
    unfold tls.md5_matches, tls.sha1_matches, tls.sha256_matches.
    rewrite !Hform by exact Hbad. repeat split.
  - intros value.
    unfold tls.md5_matches, tls.sha1_matches, tls.sha256_matches.
    repeat split; apply Hlen.
  - intros cfg t c log Hopen Hlog Hf Hbad.
    assert (Hne : FilterFingerprintMD5 cfg <> EmptyString).
    { rewrite Hf. intros ->. discriminate. }
    rewrite (Scan_eq cfg t Hopen), Scan_answer_first_configured, Hlog.
    unfold tls.first_configured_filter.
    rewrite (eqb_empty_false Hne). cbn [negb].
    rewrite filter_case_presented, Hf.
    replace (existsb (tls.md5_matches f) (tls.presented log)) with false;
      [reflexivity|].
    symmetry. apply existsb_false_iff. intros cert _.
    unfold tls.md5_matches. apply Hform. exact Hbad.
Qed.

Lemma X13_fingerprint_filter_form_witness :
  fst (tls.Scan (ES := spec_ErrorStatus)
         (Fixtures.tls_scanner
            (Fixtures.tls_flags "11111111111111111111111111111111 " "" "" ""))
         Fixtures.tls_completed)
  = Return (SCAN_SUCCESS_NOTCONTAIN, tls.nil_result, None).
Proof.
  refine (proj2 (proj2 (@X13_fingerprint_filter_form spec_ErrorStatus
                          "11111111111111111111111111111111 "))
            (Fixtures.tls_flags "11111111111111111111111111111111 " "" "" "")
            Fixtures.tls_completed {| GetLog := Some Fixtures.full_log |}
            Fixtures.full_log eq_refl eq_refl eq_refl _).
  vm_compute. reflexivity.
Defined.

(** X14. A fingerprint filter pins the digest down: two certificates that
    match the same MD5 (SHA1, SHA256) filter have the same MD5 (SHA1,
    SHA256) digest, and a certificate matches the filter made of the
    hexadecimal form of its own digest. *)
Theorem X14_fingerprint_filter_pins_digest (f : string)
    (v w : tls_SimpleCertificate) :
  (tls.md5_matches f v = true -> tls.md5_matches f w = true ->
   FingerprintMD5 (Parsed v) = FingerprintMD5 (Parsed w))
  /\ (tls.sha1_matches f v = true -> tls.sha1_matches f w = true ->
      FingerprintSHA1 (Parsed v) = FingerprintSHA1 (Parsed w))
  /\ (tls.sha256_matches f v = true -> tls.sha256_matches f w = true ->
      FingerprintSHA256 (Parsed v) = FingerprintSHA256 (Parsed w))
  /\ tls.md5_matches (hex_EncodeToString (FingerprintMD5 (Parsed v))) v = true
  /\ tls.sha1_matches (hex_EncodeToString (FingerprintSHA1 (Parsed v))) v = true
  /\ tls.sha256_matches (hex_EncodeToString (FingerprintSHA256 (Parsed v))) v = true.
Proof.
  unfold tls.md5_matches, tls.sha1_matches, tls.sha256_matches.
  repeat split;
    try (intros H1 H2; apply String.eqb_eq in H1, H2;
         apply hex_EncodeToString_inj; congruence);
    apply String.eqb_refl.
Qed.

Lemma X14_fingerprint_filter_pins_digest_witness :
  FingerprintSHA1 (Parsed Fixtures.leaf)
  = FingerprintSHA1 (Parsed (Fixtures.certificate [] (repeat x22%byte 20) [] 7)).
Proof.
  exact (proj1 (proj2 (@X14_fingerprint_filter_pins_digest Fixtures.sha1_of_leaf
                         Fixtures.leaf
                         (Fixtures.certificate [] (repeat x22%byte 20) [] 7)))
           eq_refl eq_refl).
Defined.

(** ** The serial-number filter *)

(** X15. For serial numbers that fit 64 bits the serial filter is exact: a
    certificate matches exactly when the filter is the decimal form of its
    serial number, so a filter with a sign, a leading zero or any other
    character matches nothing, and two certificates that match the same
    filter have the same serial number. *)
Theorem X15_serial_filter_exact_below_2_64 (f : string)
    (v w : tls_SimpleCertificate) :
  0 <= SerialNumber (Parsed v) < 2 ^ 64 ->
  0 <= SerialNumber (Parsed w) < 2 ^ 64 ->
  (tls.serial_matches f v = true <-> f = big_Int_String (SerialNumber (Parsed v)))
  /\ (tls.serial_matches f v = true -> tls.serial_matches f w = true ->
      SerialNumber (Parsed v) = SerialNumber (Parsed w)).
Proof.
  intros Hv Hw. split; [apply serial_matches_small; exact Hv|].
  intros H1 H2.
  apply (serial_matches_small f v Hv) in H1.
  apply (serial_matches_small f w Hw) in H2.
  rewrite <- !FormatUint10_String in * by lia.
  apply FormatUint10_inj; [lia | lia | congruence].
Qed.

Lemma X15_serial_filter_exact_below_2_64_witness :
  tls.serial_matches "4096" Fixtures.intermediate = true
  <-> "4096" = big_Int_String (SerialNumber (Parsed Fixtures.intermediate)).
Proof.
  refine (proj1 (@X15_serial_filter_exact_below_2_64 "4096"
                   Fixtures.intermediate Fixtures.root _ _)).
  - simpl. lia.
  - simpl. lia.
Defined.

(** X16. The serial filter sees the low 64 bits of the magnitude of a
    serial number and nothing else: certificates whose serial numbers
    agree there match the same filters, whatever their sign and their
    higher bits; a serial number of more than 64 bits is not matched by
    its own decimal form and is matched by that of its low 64 bits. *)
Theorem X16_serial_filter_low_64_bits (v w : tls_SimpleCertificate) :
  (Z.abs (SerialNumber (Parsed v)) mod 2 ^ 64
   = Z.abs (SerialNumber (Parsed w)) mod 2 ^ 64 <->
   forall f, tls.serial_matches f v = tls.serial_matches f w)
  /\ (2 ^ 64 <= SerialNumber (Parsed v) ->
      tls.serial_matches (big_Int_String (SerialNumber (Parsed v))) v = false
      /\ tls.serial_matches
           (big_Int_String (SerialNumber (Parsed v) mod 2 ^ 64)) v = true).
Proof.
  split; [|apply serial_matches_large].
  split.
  - intros H f. unfold tls.serial_matches, big_Int_Uint64. rewrite H. reflexivity.
  - intro H.
    specialize (H (strconv_FormatUint10 (Z.abs (SerialNumber (Parsed v)) mod 2 ^ 64))).
    assert (Hv : tls.serial_matches
                   (strconv_FormatUint10 (Z.abs (SerialNumber (Parsed v)) mod 2 ^ 64)) v
                 = true) by (apply serial_matches_spec; reflexivity).
    rewrite Hv in H. symmetry in H. apply serial_matches_spec in H.
    apply FormatUint10_inj in H;
      [exact H | apply Z.mod_pos_bound; lia | apply Z.mod_pos_bound; lia].
Qed.

Lemma X16_serial_filter_low_64_bits_witness :
  tls.serial_matches (big_Int_String (SerialNumber (Parsed Fixtures.leaf)))
    Fixtures.leaf = false
  /\ tls.serial_matches
       (big_Int_String (SerialNumber (Parsed Fixtures.leaf) mod 2 ^ 64))
       Fixtures.leaf = true.
Proof.
  refine (proj2 (@X16_serial_filter_low_64_bits Fixtures.leaf Fixtures.leaf) _).
  vm_compute. discriminate.
Defined.

Lemma X12_tls_NOTCONTAIN_iff_witness :
  fst (tls.Scan (ES := spec_ErrorStatus)
         (Fixtures.tls_scanner (Fixtures.tls_flags "" "" "" "18446744073709551621"))
         Fixtures.tls_completed)
  = Return (SCAN_SUCCESS_NOTCONTAIN, tls.nil_result, None).
Proof.
  refine (proj2 (@X12_tls_NOTCONTAIN_iff spec_ErrorStatus
                   (Fixtures.tls_flags "" "" "" "18446744073709551621")
                   Fixtures.tls_completed tls.nil_result None) _).
  split; [reflexivity|]. split; [reflexivity|].
  exists {| GetLog := Some Fixtures.full_log |}, Fixtures.full_log,
         (tls.serial_matches "18446744073709551621").
  split; [reflexivity|]. split; [reflexivity|]. split; [reflexivity|].
  intros cert [<- | [<- | [<- | []]]]; reflexivity.
Defined.
